(** * db-backup-go: the SSH tunnel manager ([data/ssh_tunnel.go])

    A shallow embedding of [SSHTunnel] and its methods.  The tunnel object
    and the operating-system resources it touches (listeners, sessions,
    relay channels) live in an explicit machine state; every library call
    that reaches the outside world is answered by an environment [Env] and
    recorded in a log, so that the order of dials and closes can be read
    back from a run. *)

From Stdlib Require Import ZArith String Ascii List Lia DecimalString.
From stdpp Require Import base option gmap sets list strings.

Local Open Scope string_scope.
Local Open Scope list_scope.
Local Open Scope Z_scope.

(** ** Values *)

(** Go's [error]: a leaf produced by a library, or [fmt.Errorf("msg: %w", e)]. *)
Inductive error : Type :=
| LibErr (what : string)
| Errorf (msg : string) (cause : error).

(** The run-time panics this file can raise. *)
Inductive panic : Type :=
| SliceBoundsOutOfRange      (* s[:2] on a string shorter than 2 *)
| CloseOfClosedChannel       (* close(ch) on a closed channel *)
| NilListener                (* the TCPListener type assertion on a nil server *)
| NilDereference.            (* a method call through a nil client *)

(** A channel of [struct{}] that is only ever closed, never sent on. *)
Inductive chan : Type := ChanOpen | ChanClosed.

(** Handles name operating-system resources: listeners, SSH clients,
    relay connections. *)
Definition handle := nat.

(** [ssh.Signer]: the parsed key material. *)
Definition Signer := string.

(** Bytes are integers in [0, 256). *)
Definition bytes := list Z.

Inductive event : Type :=
| EListen (addr : string) (r : option handle)
| EClose (h : handle)
| EReadFile (path : string)
| ESSHDial (addr user : string) (key : Signer) (r : option handle)
| ERelayDial (via : handle) (addr : string) (r : option handle)
| EHandshake (conn : handle) (addr user : string) (key : Signer) (ok : bool)
| EGo
| ESleep (ms : Z)
| EAccept (l : handle) (r : option handle)
| EOpenChannel (via : handle) (kind : string) (payload : bytes) (r : option handle)
| ECopy (src dst : handle).

(** ** The tunnel object *)

Record SSHTunnel : Type := mkSSHTunnel {
  sshHost : string;
  sshPort : Z;
  sshUser : string;
  sshKeyPath : string;
  remoteHost : string;
  remotePort : Z;
  bastionHost : string;
  bastionPort : Z;
  bastionUser : string;
  bastionKeyPath : string;
  localPort : Z;
  server : option handle;
  bastionConn : option handle;
  targetConn : option handle;
  stopChan : chan
}.

Definition set_localPort (p : Z) (t : SSHTunnel) : SSHTunnel :=
  mkSSHTunnel (sshHost t) (sshPort t) (sshUser t) (sshKeyPath t)
    (remoteHost t) (remotePort t) (bastionHost t) (bastionPort t)
    (bastionUser t) (bastionKeyPath t)
    p (server t) (bastionConn t) (targetConn t) (stopChan t).

Definition set_server (l : option handle) (t : SSHTunnel) : SSHTunnel :=
  mkSSHTunnel (sshHost t) (sshPort t) (sshUser t) (sshKeyPath t)
    (remoteHost t) (remotePort t) (bastionHost t) (bastionPort t)
    (bastionUser t) (bastionKeyPath t)
    (localPort t) l (bastionConn t) (targetConn t) (stopChan t).

Definition set_bastionConn (c : option handle) (t : SSHTunnel) : SSHTunnel :=
  mkSSHTunnel (sshHost t) (sshPort t) (sshUser t) (sshKeyPath t)
    (remoteHost t) (remotePort t) (bastionHost t) (bastionPort t)
    (bastionUser t) (bastionKeyPath t)
    (localPort t) (server t) c (targetConn t) (stopChan t).

Definition set_targetConn (c : option handle) (t : SSHTunnel) : SSHTunnel :=
  mkSSHTunnel (sshHost t) (sshPort t) (sshUser t) (sshKeyPath t)
    (remoteHost t) (remotePort t) (bastionHost t) (bastionPort t)
    (bastionUser t) (bastionKeyPath t)
    (localPort t) (server t) (bastionConn t) c (stopChan t).

Definition set_stopChan (c : chan) (t : SSHTunnel) : SSHTunnel :=
  mkSSHTunnel (sshHost t) (sshPort t) (sshUser t) (sshKeyPath t)
    (remoteHost t) (remotePort t) (bastionHost t) (bastionPort t)
    (bastionUser t) (bastionKeyPath t)
    (localPort t) (server t) (bastionConn t) (targetConn t) c.

(** [NewSSHTunnel]: the only constructor; the runtime fields take Go's zero
    values and [stopChan] is a fresh open channel. *)
Definition NewSSHTunnel (sshHost : string) (sshPort : Z) (sshUser sshKeyPath : string)
    (remoteHost : string) (remotePort : Z)
    (bastionHost : string) (bastionPort : Z) (bastionUser bastionKeyPath : string)
    : SSHTunnel :=
  let bastionPort := if bastionPort =? 0 then 22 else bastionPort in
  mkSSHTunnel sshHost sshPort sshUser sshKeyPath remoteHost remotePort
    bastionHost bastionPort bastionUser bastionKeyPath
    0 None None None ChanOpen.

(** ** The machine: one tunnel and the world around it *)

Record World : Type := mkWorld {
  w_log : list event;        (* every library call so far, oldest first *)
  w_next : handle;           (* next unused handle *)
  w_open : gset handle       (* resources currently open *)
}.

Record St : Type := mkSt { tun : SSHTunnel; world : World }.

Inductive res (A : Type) : Type :=
| Ret (a : A) (s : St)
| Panic (p : panic) (s : St).
Arguments Ret {A} a s.
Arguments Panic {A} p s.

Definition Go (A : Type) : Type := St -> res A.

Definition go_ret {A} (a : A) : Go A := fun s => Ret a s.
Definition go_bind {A B} (m : Go A) (k : A -> Go B) : Go B :=
  fun s => match m s with
           | Ret a s' => k a s'
           | Panic p s' => Panic p s'
           end.
Definition go_panic {A} (p : panic) : Go A := fun s => Panic p s.

#[global] Instance Go_ret : MRet Go := @go_ret.
#[global] Instance Go_bind : MBind Go := fun A B k m => go_bind m k.

Definition this : Go SSHTunnel := fun s => Ret (tun s) s.
Definition update (f : SSHTunnel -> SSHTunnel) : Go unit :=
  fun s => Ret tt (mkSt (f (tun s)) (world s)).
Definition history : Go (list event) := fun s => Ret (w_log (world s)) s.
Definition emit (e : event) : Go unit :=
  fun s => let w := world s in
           Ret tt (mkSt (tun s) (mkWorld (w_log w ++ [e]) (w_next w) (w_open w))).
(** A library call succeeded and returned a new resource. *)
Definition alloc : Go handle :=
  fun s => let w := world s in
           Ret (w_next w)
               (mkSt (tun s) (mkWorld (w_log w) (S (w_next w)) ({[w_next w]} ∪ w_open w))).
(** [x.Close()]: the resource is gone; closing twice is harmless. *)
Definition close (h : handle) : Go unit :=
  fun s => let w := world s in
           Ret tt (mkSt (tun s) (mkWorld (w_log w ++ [EClose h]) (w_next w) (w_open w ∖ {[h]}))).

(** ** The environment: what the libraries answer *)

Inductive accepted : Type := AcceptTimeout | AcceptError | AcceptConn.

Record Env : Type := mkEnv {
  ExpandEnv : string -> string;                          (* os.ExpandEnv *)
  UserHomeDir : string;                                  (* os.UserHomeDir, error dropped *)
  Join : string -> string -> string;                     (* filepath.Join *)
  ReadFile : list event -> string -> error + string;     (* os.ReadFile *)
  ParsePrivateKey : string -> error + Signer;            (* ssh.ParsePrivateKey *)
  net_Listen : list event -> string -> error + Z;        (* net.Listen("tcp", addr): the bound port *)
  ssh_Dial : list event -> string -> string -> Signer -> option error;
  client_Dial : list event -> handle -> string -> option error;
  ssh_NewClientConn : list event -> handle -> string -> string -> Signer -> option error;
  net_Accept : list event -> handle -> accepted;
  ssh_OpenChannel : list event -> handle -> string -> bytes -> option error
}.

(** [fmt.Sprintf("%s:%d", host, port)] *)
Definition itoa (z : Z) : string := NilZero.string_of_int (Z.to_int z).
Definition hostport (host : string) (port : Z) : string :=
  host +:+ ":" +:+ itoa port.

(** ** Byte buffers *)

(** The conversions [byte(v)] and [uint32(v)] keep the low bits. *)
Definition byte (z : Z) : Z := z mod 256.
Definition uint32 (z : Z) : Z := z mod 2 ^ 32.

(** [[]byte(s)] *)
Definition bytes_of_string (s : string) : bytes :=
  map (fun a => Z.of_N (N_of_ascii a)) (list_ascii_of_string s).

(** [make([]byte, n)] *)
Definition make (n : nat) : bytes := replicate n 0.

(** [binary.BigEndian.PutUint32(b[lo:hi], v)]: the slice expression and the
    early bounds check [_ = b[3]] panic ([None]) when out of range; the four
    writes go through to the shared backing array. *)
Definition PutUint32 (b : bytes) (lo hi : nat) (v : Z) : option bytes :=
  if decide (lo ≤ hi ≤ length b ∧ 3 < hi - lo)%nat then
    Some (<[(lo + 3)%nat := byte v]>
         (<[(lo + 2)%nat := byte (v ≫ 8)]>
         (<[(lo + 1)%nat := byte (v ≫ 16)]>
         (<[lo := byte (v ≫ 24)]> b))))
  else None.

(** [copy(b[lo:], src)]: copies [min(len(b) - lo, len(src))] bytes. *)
Definition copy (b : bytes) (lo : nat) (src : bytes) : option bytes :=
  if decide (lo ≤ length b)%nat then
    let n := Nat.min (length b - lo) (length src) in
    Some (take lo b ++ take n src ++ drop (lo + n) b)
  else None.

(** The payload built in [forwardTunnel] for [OpenChannel("direct-tcpip", _)],
    statement by statement. *)
Definition channelData (t : SSHTunnel) : option bytes :=
  let hostBytes := bytes_of_string (remoteHost t) in
  let n := length hostBytes in
  let channelData := make (4 + n + 4 + 4 + 4 + 4) in
  channelData ← PutUint32 channelData 0 4 (uint32 (Z.of_nat n));
  channelData ← copy channelData 4 hostBytes;
  channelData ← PutUint32 channelData (4 + n) (4 + n + 4) (uint32 (remotePort t));
  let originatorIP := [127; 0; 0; 1] in
  channelData ← PutUint32 channelData (4 + n + 4) (4 + n + 8)
                  (uint32 (Z.of_nat (length originatorIP)));
  channelData ← copy channelData (4 + n + 8) originatorIP;
  PutUint32 channelData (4 + n + 8 + length originatorIP) (length channelData) 0.

(** ** The relay request on the wire

    The [direct-tcpip] channel request of the secure-transport standard:
    two length-prefixed strings and two 32-bit integers, big endian.  This
    decoder follows the standard, not the code; it is what the far end
    runs on the payload. *)

Record RelayRequest : Type := mkRelayRequest {
  rr_host : string;          (* host to connect *)
  rr_port : Z;               (* port to connect *)
  rr_origin : string;        (* originator IP address, as text *)
  rr_origin_port : Z         (* originator port *)
}.

Definition string_of_bytes (b : bytes) : string :=
  string_of_list_ascii (map (fun z => ascii_of_N (Z.to_N z)) b).

Definition get_uint32 (b : bytes) : option (Z * bytes) :=
  match b with
  | b0 :: b1 :: b2 :: b3 :: rest =>
      Some (b0 * 2 ^ 24 + b1 * 2 ^ 16 + b2 * 2 ^ 8 + b3, rest)
  | _ => None
  end.

Definition get_string (b : bytes) : option (string * bytes) :=
  '(n, rest) ← get_uint32 b;
  if decide (Z.to_nat n ≤ length rest)%nat
  then Some (string_of_bytes (take (Z.to_nat n) rest), drop (Z.to_nat n) rest)
  else None.

Definition decode_direct_tcpip (b : bytes) : option RelayRequest :=
  '(host, b) ← get_string b;
  '(port, b) ← get_uint32 b;
  '(origin, b) ← get_string b;
  '(oport, b) ← get_uint32 b;
  match b with
  | [] => Some (mkRelayRequest host port origin oport)
  | _ => None
  end.

Section Methods.
Context (env : Env).

(** [net.Listen("tcp", addr)] *)
Definition Listen (addr : string) : Go (error + (handle * Z)) :=
  h ← history;
  match net_Listen env h addr with
  | inl err => emit (EListen addr None);; mret (inl err)
  | inr port => l ← alloc; emit (EListen addr (Some l));; mret (inr (l, port))
  end.

(** [findFreePort]: the deferred [listener.Close()] runs after the return
    value has been read from [listener.Addr()]. *)
Definition findFreePort : Go (Z * option error) :=
  r ← Listen ":0";
  match r with
  | inl err => mret (0, Some err)
  | inr (listener, port) =>
      close listener;;
      mret (port, None)
  end.

(** Lines 73-77 of [loadSSHKey], the path that is going to be read:
    [expandedPath[:2]] panics ([None]) when the expanded string has fewer
    than two bytes. *)
Definition loadSSHKey_path (keyPath : string) : option string :=
  let expandedPath := ExpandEnv env keyPath in
  if (String.length expandedPath <? 2)%nat then None else
  if String.eqb (substring 0 2 expandedPath) "~/"
  then Some (Join env (UserHomeDir env)
               (substring 2 (String.length expandedPath - 2) expandedPath))
  else Some expandedPath.

(** [loadSSHKey] *)
Definition loadSSHKey (keyPath : string) : Go (error + Signer) :=
  match loadSSHKey_path keyPath with
  | None => go_panic SliceBoundsOutOfRange
  | Some expandedPath =>
      h ← history;
      emit (EReadFile expandedPath);;
      match ReadFile env h expandedPath with
      | inl err => mret (inl (Errorf "failed to read SSH key file" err))
      | inr keyData =>
          match ParsePrivateKey env keyData with
          | inl err => mret (inl (Errorf "failed to parse SSH key" err))
          | inr key => mret (inr key)
          end
      end
  end.

(** [ssh.Dial("tcp", addr, config)] *)
Definition Dial (addr user : string) (key : Signer) : Go (error + handle) :=
  h ← history;
  match ssh_Dial env h addr user key with
  | Some err => emit (ESSHDial addr user key None);; mret (inl err)
  | None => c ← alloc; emit (ESSHDial addr user key (Some c));; mret (inr c)
  end.

Definition createSSHClient (host : string) (port : Z) (user keyPath : string)
    : Go (error + handle) :=
  k ← loadSSHKey keyPath;
  match k with
  | inl err => mret (inl err)
  | inr key =>
      c ← Dial (hostport host port) user key;
      match c with
      | inl err => mret (inl (Errorf ("failed to connect to " +:+ hostport host port) err))
      | inr client => mret (inr client)
      end
  end.

(** [bastionClient.Dial("tcp", addr)]: a raw relay channel through [via]. *)
Definition RelayDial (via : handle) (addr : string) : Go (error + handle) :=
  h ← history;
  match client_Dial env h via addr with
  | Some err => emit (ERelayDial via addr None);; mret (inl err)
  | None => c ← alloc; emit (ERelayDial via addr (Some c));; mret (inr c)
  end.

(** [ssh.NewClientConn(conn, addr, config)] followed by [ssh.NewClient]: the
    client speaks over [conn] and is named by the same handle, so closing
    the client closes the connection under it. *)
Definition NewClientConn (conn : handle) (addr user : string) (key : Signer)
    : Go (error + handle) :=
  h ← history;
  match ssh_NewClientConn env h conn addr user key with
  | Some err => emit (EHandshake conn addr user key false);; mret (inl err)
  | None => emit (EHandshake conn addr user key true);; mret (inr conn)
  end.

(** [Stop] *)
Definition Stop : Go unit :=
  t ← this;
  match stopChan t with
  | ChanClosed => go_panic CloseOfClosedChannel
  | ChanOpen => update (set_stopChan ChanClosed)
  end;;
  t ← this;
  match server t with
  | Some l => close l;; update (set_server None)
  | None => mret tt
  end;;
  t ← this;
  match targetConn t with
  | Some c => close c;; update (set_targetConn None)
  | None => mret tt
  end;;
  t ← this;
  match bastionConn t with
  | Some c => close c;; update (set_bastionConn None)
  | None => mret tt
  end;;
  update (set_localPort 0).

(** The [if t.bastionHost != "" { ... } else { ... }] block of [Start]:
    [Some err] is an early [return 0, err]. *)
Definition Start_transport : Go (option error) :=
  t ← this;
  if negb (String.eqb (bastionHost t) "") then
    let bastionUser := if String.eqb (bastionUser t) "" then sshUser t else bastionUser t in
    let bastionKeyPath :=
      if String.eqb (bastionKeyPath t) "" then sshKeyPath t else bastionKeyPath t in
    r ← createSSHClient (bastionHost t) (bastionPort t) bastionUser bastionKeyPath;
    match r with
    | inl err => mret (Some (Errorf "failed to connect to bastion" err))
    | inr bastionClient =>
        update (set_bastionConn (Some bastionClient));;
        r ← RelayDial bastionClient (hostport (sshHost t) (sshPort t));
        match r with
        | inl err =>
            close bastionClient;;
            mret (Some (Errorf "failed to dial target through bastion" err))
        | inr conn =>
            k ← loadSSHKey (sshKeyPath t);
            match k with
            | inl err =>
                close conn;; close bastionClient;;
                mret (Some (Errorf "failed to load SSH key" err))
            | inr key =>
                r ← NewClientConn conn (hostport (sshHost t) (sshPort t)) (sshUser t) key;
                match r with
                | inl err =>
                    close conn;; close bastionClient;;
                    mret (Some (Errorf "failed to create SSH connection through bastion" err))
                | inr targetClient =>
                    update (set_targetConn (Some targetClient));;
                    mret None
                end
            end
        end
    end
  else
    r ← createSSHClient (sshHost t) (sshPort t) (sshUser t) (sshKeyPath t);
    match r with
    | inl err => mret (Some (Errorf "failed to connect to SSH host" err))
    | inr targetClient => update (set_targetConn (Some targetClient));; mret None
    end.

(** [Start] *)
Definition Start : Go (Z * option error) :=
  t ← this;
  if negb (localPort t =? 0) then mret (localPort t, None) else
  r ← findFreePort;
  match r with
  | (_, Some err) => mret (0, Some (Errorf "failed to find free port" err))
  | (port, None) =>
      update (set_localPort port);;
      r ← Start_transport;
      match r with
      | Some err => mret (0, Some err)
      | None =>
          t ← this;
          r ← Listen (hostport "127.0.0.1" (localPort t));
          match r with
          | inl err =>
              Stop;;
              mret (0, Some (Errorf "failed to create local listener" err))
          | inr (listener, _) =>
              update (set_server (Some listener));;
              emit EGo;;
              emit (ESleep 500);;
              t ← this;
              mret (localPort t, None)
          end
      end
  end.

(** One turn of the [for] loop of [forwardTunnel]; the two copying
    goroutines are recorded as launched. *)
Inductive ctl : Type := LoopContinue | LoopReturn.

Definition forwardTunnel_iter : Go ctl :=
  t ← this;
  match stopChan t with
  | ChanClosed => mret LoopReturn
  | ChanOpen =>
      match server t with
      | None => go_panic NilListener
      | Some l =>
          h ← history;
          match net_Accept env h l with
          | AcceptTimeout => emit (EAccept l None);; mret LoopContinue
          | AcceptError =>
              emit (EAccept l None);;
              t ← this;
              match stopChan t with
              | ChanClosed => mret LoopReturn
              | ChanOpen => mret LoopContinue
              end
          | AcceptConn =>
              clientConn ← alloc;
              emit (EAccept l (Some clientConn));;
              match channelData t with
              | None => go_panic SliceBoundsOutOfRange
              | Some data =>
                  match targetConn t with
                  | None => go_panic NilDereference
                  | Some target =>
                      h ← history;
                      match ssh_OpenChannel env h target "direct-tcpip" data with
                      | Some err =>
                          emit (EOpenChannel target "direct-tcpip" data None);;
                          close clientConn;;
                          mret LoopContinue
                      | None =>
                          channel ← alloc;
                          emit (EOpenChannel target "direct-tcpip" data (Some channel));;
                          emit (ECopy clientConn channel);;
                          emit (ECopy channel clientConn);;
                          mret LoopContinue
                      end
                  end
              end
          end
      end
  end.

(** The goroutine [forwardTunnel], run for at most [fuel] turns:
    [LoopReturn] when it has returned, [LoopContinue] when it is still
    looping after [fuel] turns. *)
Fixpoint forwardTunnel (fuel : nat) : Go ctl :=
  match fuel with
  | O => mret LoopContinue
  | S fuel' =>
      c ← forwardTunnel_iter;
      match c with
      | LoopReturn => mret LoopReturn
      | LoopContinue => forwardTunnel fuel'
      end
  end.

End Methods.

(** ** A laboratory environment

    One key file exists, [/keys/id]; no path mentions an environment
    variable, so [os.ExpandEnv] leaves every path as it is; the system hands
    out port 40000; every dial and handshake succeeds. *)
Definition lab : Env :=
  {| ExpandEnv := fun s => s;
     UserHomeDir := "/home/backup";
     Join := fun a b => a +:+ "/" +:+ b;
     ReadFile := fun _ p =>
       if String.eqb p "/keys/id" then inr "ed25519" else inl (LibErr "no such file or directory");
     ParsePrivateKey := fun d => inr d;
     net_Listen := fun _ _ => inr 40000;
     ssh_Dial := fun _ _ _ _ => None;
     client_Dial := fun _ _ _ => None;
     ssh_NewClientConn := fun _ _ _ _ _ => None;
     net_Accept := fun _ _ => AcceptConn;
     ssh_OpenChannel := fun _ _ _ _ => None |}.

(** The same, but the bastion refuses to relay. *)
Definition lab_norelay : Env :=
  {| ExpandEnv := ExpandEnv lab;
     UserHomeDir := UserHomeDir lab;
     Join := Join lab;
     ReadFile := ReadFile lab;
     ParsePrivateKey := ParsePrivateKey lab;
     net_Listen := net_Listen lab;
     ssh_Dial := ssh_Dial lab;
     client_Dial := fun _ _ _ => Some (LibErr "administratively prohibited");
     ssh_NewClientConn := ssh_NewClientConn lab;
     net_Accept := net_Accept lab;
     ssh_OpenChannel := ssh_OpenChannel lab |}.

Definition boot : World := mkWorld [] 0%nat ∅.

Definition direct_tunnel : SSHTunnel :=
  NewSSHTunnel "ssh.example" 22 "backup" "/keys/id" "db" 3306 "" 0 "" "".
Definition nokey_tunnel : SSHTunnel :=
  NewSSHTunnel "ssh.example" 22 "backup" "/keys/missing" "db" 3306 "" 0 "" "".
Definition tilde_tunnel : SSHTunnel :=
  NewSSHTunnel "ssh.example" 22 "backup" "~" "db" 3306 "" 0 "" "".
Definition chained_tunnel : SSHTunnel :=
  NewSSHTunnel "ssh.example" 22 "backup" "/keys/id" "db" 3306 "bastion.example" 0 "" "".

(** ** Running the machine *)

Ltac go_unfold :=
  unfold mbind, Go_bind, go_bind, mret, Go_ret, go_ret,
         this, update, history, emit, alloc, close, go_panic in *.

(** A tunnel holding no port and no handle. *)
Definition idle (t : SSHTunnel) : Prop :=
  localPort t = 0 ∧ server t = None ∧ bastionConn t = None ∧ targetConn t = None.

(** ** The constructor *)

(** C10. A bastion port of 0 is stored as 22, any other bastion port as
    given; every other argument is stored as given; the new tunnel holds no
    port, no listener and no session, and its stop channel is open. *)
Theorem NewSSHTunnel_fields
    (h : string) (p : Z) (u k rh : string) (rp : Z) (bh : string) (bp : Z) (bu bk : string) :
  let t := NewSSHTunnel h p u k rh rp bh bp bu bk in
  bastionPort (NewSSHTunnel h p u k rh rp bh 0 bu bk) = 22 ∧
  bastionPort t = (if decide (bp = 0) then 22 else bp) ∧
  sshHost t = h ∧ sshPort t = p ∧ sshUser t = u ∧ sshKeyPath t = k ∧
  remoteHost t = rh ∧ remotePort t = rp ∧
  bastionHost t = bh ∧ bastionUser t = bu ∧ bastionKeyPath t = bk ∧
  idle t ∧ stopChan t = ChanOpen.
Proof.
  unfold NewSSHTunnel, idle; simpl.
  repeat split; try reflexivity.
  destruct (decide (bp = 0)) as [-> | Hbp]; [reflexivity |].
  destruct (Z.eqb_spec bp 0); [contradiction | reflexivity].
Qed.

(** ** The port probe *)

(** Addresses that bind the loopback interface only. *)
Definition loopback_addr (addr : string) : bool :=
  String.prefix "127.0.0.1:" addr || String.prefix "localhost:" addr
  || String.prefix "[::1]:" addr.

Definition logged (es : list event) (s s' : St) : Prop :=
  w_log (world s') = w_log (world s) ++ es.

(** C9, as the code has it: [findFreePort] always returns.  It binds [":0"],
    the wildcard address; when the bind succeeds it returns the port the
    system assigned together with a nil error, and the probe is closed by
    then; when the bind fails it returns port 0 and the error, and nothing
    was opened. The tunnel itself is not touched. *)
Theorem findFreePort_probe (env : Env) (s : St) :
  ∃ z e s',
    findFreePort env s = Ret (z, e) s' ∧ tun s' = tun s ∧
    ((e = None ∧ net_Listen env (w_log (world s)) ":0" = inr z ∧
      ∃ l, logged [EListen ":0" (Some l); EClose l] s s' ∧ l ∉ w_open (world s'))
     ∨
     (∃ err, e = Some err ∧ z = 0 ∧ net_Listen env (w_log (world s)) ":0" = inl err ∧
      logged [EListen ":0" None] s s' ∧ w_open (world s') = w_open (world s))).
Proof.
  unfold findFreePort, Listen, logged. go_unfold. simpl.
  destruct (net_Listen env (w_log (world s)) ":0") as [err | port]; simpl.
  - eexists 0, (Some err), _. split; [reflexivity |]. split; [reflexivity |].
    right. exists err. auto.
  - eexists port, None, _. split; [reflexivity |]. split; [reflexivity |].
    left. split; [reflexivity |]. split; [reflexivity |].
    exists (w_next (world s)). simpl. split.
    + rewrite <- app_assoc. reflexivity.
    + rewrite elem_of_difference, elem_of_singleton. tauto.
Qed.

(** C9, as stated, fails: in the laboratory the allocation succeeds, yet
    no bind of that run names a loopback address. *)
Lemma findFreePort_probe_wildcard :
  ∃ s', findFreePort lab (mkSt direct_tunnel boot) = Ret (40000, None) s' ∧
        w_log (world s') = [EListen ":0" (Some 0%nat); EClose 0%nat] ∧
        loopback_addr ":0" = false.
Proof. eexists. repeat split. Qed.

(** ** The key loader *)

(** C5. A key path whose expansion has fewer than two bytes makes
    [loadSSHKey] panic on [expandedPath[:2]]; nothing has been read by
    then. *)
Theorem loadSSHKey_short_path_panics (env : Env) (keyPath : string) (s : St) :
  (String.length (ExpandEnv env keyPath) < 2)%nat →
  loadSSHKey env keyPath s = Panic SliceBoundsOutOfRange s.
Proof.
  intros Hlen. unfold loadSSHKey, loadSSHKey_path.
  destruct (Nat.ltb_spec (String.length (ExpandEnv env keyPath)) 2) as [_ | Hge].
  - reflexivity.
  - lia.
Qed.

Lemma loadSSHKey_short_path_panics_witness :
  (String.length (ExpandEnv lab "~") < 2)%nat ∧
  loadSSHKey lab "~" (mkSt tilde_tunnel boot)
  = Panic SliceBoundsOutOfRange (mkSt tilde_tunnel boot).
Proof.
  split; [simpl; lia |].
  apply (loadSSHKey_short_path_panics lab "~" (mkSt tilde_tunnel boot)).
  simpl; lia.
Defined.

(** ** Stopping *)

Lemma Stop_closes_stopChan (s s1 : St) :
  Stop s = Ret tt s1 → stopChan (tun s1) = ChanClosed.
Proof.
  unfold Stop. go_unfold.
  destruct s as [[? ? ? ? ? ? ? ? ? ? ? srv bc tc []] w]; simpl; [| discriminate].
  destruct srv, tc, bc; simpl; intros H; inversion H; reflexivity.
Qed.

Lemma Stop_on_closed_panics (s : St) :
  stopChan (tun s) = ChanClosed → Stop s = Panic CloseOfClosedChannel s.
Proof.
  intros Hc. unfold Stop. go_unfold. rewrite Hc. reflexivity.
Qed.

(** C2. Whatever the tunnel's state, a [Stop] that returns is followed by
    a [Stop] that panics on [close(t.stopChan)]. *)
Theorem Stop_twice_panics (s s1 : St) :
  Stop s = Ret tt s1 → Stop s1 = Panic CloseOfClosedChannel s1.
Proof.
  intros H. apply Stop_on_closed_panics. exact (Stop_closes_stopChan s s1 H).
Qed.

Lemma Stop_twice_panics_witness :
  Stop (mkSt direct_tunnel boot)
    = Ret tt (mkSt (set_stopChan ChanClosed direct_tunnel) boot) ∧
  Stop (mkSt (set_stopChan ChanClosed direct_tunnel) boot)
    = Panic CloseOfClosedChannel (mkSt (set_stopChan ChanClosed direct_tunnel) boot).
Proof.
  split; [reflexivity |].
  apply (Stop_twice_panics (mkSt direct_tunnel boot)). reflexivity.
Defined.

(** ** The relay-request payload *)

(** The four bytes [PutUint32] writes. *)
Definition be32 (v : Z) : bytes :=
  [byte (v ≫ 24); byte (v ≫ 16); byte (v ≫ 8); byte v].

Lemma PutUint32_fill (pre : bytes) (m : nat) (buf : bytes) (lo hi : nat) (v : Z) :
  buf = pre ++ replicate m 0 →
  lo = length pre → (4 ≤ m)%nat → (lo + 4 ≤ hi ≤ lo + m)%nat →
  PutUint32 buf lo hi v = Some ((pre ++ be32 v) ++ replicate (m - 4) 0).
Proof.
  intros -> -> Hm Hhi. unfold PutUint32.
  rewrite decide_True by (rewrite length_app, length_replicate; lia).
  f_equal.
  destruct m as [| [| [| [| m]]]]; try lia.
  replace (S (S (S (S m))) - 4)%nat with m by lia.
  cbn [replicate]. unfold bytes in *.
  rewrite (insert_app_r_alt pre) by lia.
  rewrite (insert_app_r_alt pre) by lia.
  rewrite (insert_app_r_alt pre) by lia.
  rewrite (insert_app_r_alt pre) by lia.
  replace (length pre - length pre)%nat with 0%nat by lia.
  replace (length pre + 1 - length pre)%nat with 1%nat by lia.
  replace (length pre + 2 - length pre)%nat with 2%nat by lia.
  replace (length pre + 3 - length pre)%nat with 3%nat by lia.
  rewrite <- app_assoc. reflexivity.
Qed.

Lemma copy_fill (pre : bytes) (m : nat) (buf : bytes) (lo : nat) (src : bytes) :
  buf = pre ++ replicate m 0 →
  lo = length pre → (length src ≤ m)%nat →
  copy buf lo src = Some ((pre ++ src) ++ replicate (m - length src) 0).
Proof.
  intros -> -> Hm. unfold copy.
  rewrite decide_True by (rewrite length_app; lia).
  f_equal.
  rewrite length_app, length_replicate.
  replace (length pre + m - length pre)%nat with m by lia.
  rewrite Nat.min_r by lia.
  rewrite take_app_length, firstn_all.
  rewrite drop_app_add, drop_replicate.
  rewrite <- app_assoc. reflexivity.
Qed.

(** The payload, field after field. *)
Definition wire (t : SSHTunnel) : bytes :=
  be32 (uint32 (Z.of_nat (String.length (remoteHost t))))
  ++ bytes_of_string (remoteHost t)
  ++ be32 (uint32 (remotePort t))
  ++ be32 4 ++ [127; 0; 0; 1] ++ be32 0.

Lemma length_bytes_of_string (s : string) :
  length (bytes_of_string s) = String.length s.
Proof.
  unfold bytes_of_string. rewrite length_map.
  induction s as [| a s IH]; simpl; [reflexivity | now rewrite IH].
Qed.

Ltac buf_len :=
  repeat rewrite ?length_app, ?length_replicate; simpl; lia.

Lemma channelData_wire (t : SSHTunnel) : channelData t = Some (wire t).
Proof.
  unfold channelData, wire, make.
  rewrite (length_bytes_of_string (remoteHost t)).
  pose proof (length_bytes_of_string (remoteHost t)) as Hn.
  set (hb := bytes_of_string (remoteHost t)) in *.
  set (n := String.length (remoteHost t)) in *.
  erewrite (PutUint32_fill []); [| reflexivity | reflexivity | lia | simpl; lia].
  cbn [mbind option_bind].
  erewrite copy_fill; [| reflexivity | buf_len | buf_len].
  cbn [mbind option_bind].
  erewrite PutUint32_fill; [| reflexivity | buf_len | buf_len | buf_len].
  cbn [mbind option_bind].
  erewrite PutUint32_fill; [| reflexivity | buf_len | buf_len | buf_len].
  cbn [mbind option_bind].
  erewrite copy_fill; [| reflexivity | buf_len | buf_len].
  cbn [mbind option_bind].
  erewrite PutUint32_fill; [| reflexivity | buf_len | buf_len | buf_len].
  f_equal.
  match goal with |- context [replicate ?k 0] =>
    replace k with 0%nat by (simpl; lia) end.
  cbn [replicate]. rewrite app_nil_r. cbn [app length].
  rewrite <- !app_assoc. reflexivity.
Qed.

Lemma uint32_range (z : Z) : 0 ≤ uint32 z < 2 ^ 32.
Proof. unfold uint32. apply Z.mod_pos_bound. lia. Qed.

Lemma get_uint32_be32 (v : Z) (rest : bytes) :
  0 ≤ v < 2 ^ 32 → get_uint32 (be32 v ++ rest) = Some (v, rest).
Proof.
  intros Hv. unfold be32, get_uint32, byte. cbn [app].
  do 2 f_equal.
  rewrite !Z.shiftr_div_pow2 by lia.
  change (2 ^ 24) with 16777216. change (2 ^ 16) with 65536.
  change (2 ^ 8) with 256. change (2 ^ 32) with 4294967296 in Hv.
  assert (v / 16777216 < 256) by (apply Z.div_lt_upper_bound; lia).
  assert (0 ≤ v / 16777216) by (apply Z.div_pos; lia).
  rewrite (Z.mod_small (v / 16777216)) by lia.
  pose proof (Z.div_mod v 16777216 ltac:(lia)).
  pose proof (Z.div_mod v 65536 ltac:(lia)).
  pose proof (Z.div_mod v 256 ltac:(lia)).
  pose proof (Z.div_mod (v / 65536) 256 ltac:(lia)).
  pose proof (Z.div_mod (v / 256) 256 ltac:(lia)).
  pose proof (Z.mod_pos_bound v 256 ltac:(lia)).
  pose proof (Z.mod_pos_bound (v / 256) 256 ltac:(lia)).
  pose proof (Z.mod_pos_bound (v / 65536) 256 ltac:(lia)).
  assert (v / 256 / 256 = v / 65536) by (rewrite Z.div_div by lia; reflexivity).
  assert (v / 65536 / 256 = v / 16777216) by (rewrite Z.div_div by lia; reflexivity).
  lia.
Qed.

Lemma string_of_bytes_of_string (s : string) :
  string_of_bytes (bytes_of_string s) = s.
Proof.
  unfold string_of_bytes, bytes_of_string.
  induction s as [| a s IH]; cbn; [reflexivity |].
  rewrite N2Z.id, ascii_N_embedding. f_equal. exact IH.
Qed.

Lemma get_string_be32 (s : string) (rest : bytes) :
  Z.of_nat (String.length s) < 2 ^ 32 →
  get_string (be32 (Z.of_nat (String.length s)) ++ bytes_of_string s ++ rest)
  = Some (s, rest).
Proof.
  intros Hlen. unfold get_string.
  rewrite get_uint32_be32 by lia. cbn [mbind option_bind].
  rewrite Nat2Z.id.
  rewrite decide_True by (rewrite length_app, length_bytes_of_string; lia).
  rewrite <- (length_bytes_of_string s) at 1 2.
  rewrite take_app_length, drop_app_length, string_of_bytes_of_string.
  reflexivity.
Qed.

(** What the far end reads as the originator address: a four-character
    string with the character codes 127, 0, 0, 1. *)
Definition origin_sent : string := string_of_bytes [127; 0; 0; 1].

(** The payload decodes, by the standard format, to the remote host, the
    remote port reduced to 32 bits, the four raw bytes 127, 0, 0, 1 as
    originator address, and originator port 0. *)
Lemma channelData_decodes (t : SSHTunnel) :
  Z.of_nat (String.length (remoteHost t)) < 2 ^ 32 →
  ∃ data,
    channelData t = Some data ∧
    decode_direct_tcpip data
    = Some (mkRelayRequest (remoteHost t) (remotePort t mod 2 ^ 32) origin_sent 0) ∧
    String.length origin_sent = 4%nat ∧
    origin_sent ≠ "127.0.0.1".
Proof.
  intros Hlen. exists (wire t). split; [apply channelData_wire |].
  split; [| split; [reflexivity | discriminate]].
  unfold wire, decode_direct_tcpip.
  unfold uint32 at 1. rewrite Z.mod_small by lia.
  rewrite get_string_be32 by exact Hlen. cbn [mbind option_bind].
  rewrite get_uint32_be32 by apply uint32_range. cbn [mbind option_bind].
  reflexivity.
Qed.

Example channelData_decodes_db :
  Z.of_nat (String.length (remoteHost direct_tunnel)) < 2 ^ 32 ∧
  ∃ data,
    channelData direct_tunnel = Some data ∧
    decode_direct_tcpip data = Some (mkRelayRequest "db" 3306 origin_sent 0) ∧
    String.length origin_sent = 4%nat ∧
    origin_sent ≠ "127.0.0.1".
Proof.
  split; [vm_compute; reflexivity |].
  apply (channelData_decodes direct_tunnel). vm_compute; reflexivity.
Qed.

(** ** Starting *)

(** The state a run ends in, returned or panicked. *)
Definition final {A : Type} (r : res A) : St :=
  match r with
  | Ret _ s => s
  | Panic _ s => s
  end.

Ltac go_start :=
  unfold Start, Start_transport, findFreePort, Listen, createSSHClient,
         loadSSHKey, Dial, RelayDial, NewClientConn, Stop in *;
  go_unfold.

(** Case analysis on the environment's next answer: the innermost
    scrutinee of the goal. *)
Ltac go_pick x :=
  lazymatch x with
  | context [match _ with _ => _ end] => fail
  | context [if _ then _ else _] => fail
  | _ => destruct x eqn:?
  end.

Ltac go_case :=
  match goal with
  | |- context [match ?x with _ => _ end] => go_pick x
  | |- context [if ?x then _ else _] => go_pick x
  end.

Ltac go_cases := repeat (go_case; cbn; try discriminate).

Ltac go_inj :=
  let H := fresh "H" in
  intros H; injection H as; subst.

(** What a returning [Start] leaves behind: on success [localPort] is the
    port returned, and a closed stop channel stays closed. *)
Lemma Start_returns_localPort (env : Env) (s : St) z e s' :
  Start env s = Ret (z, e) s' →
  (e = None → localPort (tun s') = z) ∧
  (stopChan (tun s) = ChanClosed → stopChan (tun s') = ChanClosed).
Proof.
  destruct s as [[? ? ? ? ? ? bh ? bu bk lp srv bc tc ch] w].
  go_start. cbn. go_cases.
  all: go_inj; cbn; split; intros; congruence.
Qed.

(** [n] further calls of [Start], one after the other. *)
Fixpoint Start_again (env : Env) (n : nat) : Go (list (Z * option error)) :=
  match n with
  | O => mret []
  | S n' => r ← Start env; rs ← Start_again env n'; mret (r :: rs)
  end.

(** C6. After a [Start] that returned a port and no error, any number of
    further [Start] calls, whatever has happened in the world meanwhile,
    return that same port and no error, make no library call, open nothing
    and leave the tunnel as it was. *)
Theorem Start_idempotent (env : Env) (s : St) (p : Z) (s' : St) :
  Start env s = Ret (p, None) s' →
  p ≠ 0 →
  ∀ (n : nat) (w : World),
    Start_again env n (mkSt (tun s') w)
    = Ret (replicate n (p, None)) (mkSt (tun s') w).
Proof.
  intros Hstart Hp n w.
  apply Start_returns_localPort in Hstart as [Hport _].
  specialize (Hport eq_refl).
  induction n as [| n IH]; [reflexivity |].
  cbn [Start_again replicate]. go_unfold.
  unfold Start at 1. go_unfold. cbn [tun].
  rewrite Hport.
  destruct (Z.eqb_spec p 0) as [-> | _]; [contradiction |].
  cbn [negb]. rewrite IH. reflexivity.
Qed.

(** The laboratory's direct tunnel, started. *)
Definition started : St := final (Start lab (mkSt direct_tunnel boot)).

Lemma Start_idempotent_witness :
  Start lab (mkSt direct_tunnel boot) = Ret (40000, None) started ∧
  40000 ≠ 0 ∧
  Start_again lab 3 (mkSt (tun started) (world started))
  = Ret (replicate 3 (40000, None)) (mkSt (tun started) (world started)).
Proof.
  split; [vm_compute; reflexivity |]. split; [lia |].
  apply (Start_idempotent lab (mkSt direct_tunnel boot) 40000 started);
    [vm_compute; reflexivity | lia].
Defined.

(** ** Stopping, then starting again *)

Lemma Stop_leaves_idle (s s1 : St) :
  Stop s = Ret tt s1 → idle (tun s1).
Proof.
  unfold Stop, idle. go_unfold.
  destruct s as [[? ? ? ? ? ? ? ? ? ? ? srv bc tc []] w]; cbn; [| discriminate].
  destruct srv, tc, bc; cbn; go_inj; cbn; auto.
Qed.

(** C3. A [Stop] that returns leaves no port and no handle, but it leaves
    the stop channel closed, which the constructor had left open; a [Start]
    that succeeds after it launches a forwarder that returns on its first
    look at the stop channel, whatever the fuel. *)
Theorem restart_after_Stop_forwards_nothing
    (env : Env) (s s1 : St) (p : Z) (s2 : St) (fuel : nat) :
  Stop s = Ret tt s1 →
  Start env s1 = Ret (p, None) s2 →
  idle (tun s1) ∧ stopChan (tun s1) = ChanClosed ∧
  forwardTunnel env (S fuel) s2 = Ret LoopReturn s2.
Proof.
  intros Hstop Hstart.
  pose proof (Stop_closes_stopChan s s1 Hstop) as Hclosed.
  split; [exact (Stop_leaves_idle s s1 Hstop) |].
  split; [exact Hclosed |].
  apply Start_returns_localPort in Hstart as [_ Hkeep].
  specialize (Hkeep Hclosed).
  cbn [forwardTunnel]. unfold forwardTunnel_iter. go_unfold.
  rewrite Hkeep. reflexivity.
Qed.

(** The laboratory's direct tunnel, stopped before any start, and then
    started. *)
Definition stopped : St := final (Stop (mkSt direct_tunnel boot)).
Definition restarted : St := final (Start lab stopped).

Lemma restart_after_Stop_forwards_nothing_witness :
  Stop (mkSt direct_tunnel boot) = Ret tt stopped ∧
  Start lab stopped = Ret (40000, None) restarted ∧
  idle (tun stopped) ∧ stopChan (tun stopped) = ChanClosed ∧
  forwardTunnel lab 1 restarted = Ret LoopReturn restarted.
Proof.
  split; [vm_compute; reflexivity |]. split; [vm_compute; reflexivity |].
  apply (restart_after_Stop_forwards_nothing lab (mkSt direct_tunnel boot) stopped
           40000 restarted 0%nat); vm_compute; reflexivity.
Defined.

(** ** A start that fails on the way to the target *)

(** The probe does not touch the tunnel. *)
Lemma findFreePort_frame (env : Env) (s : St) r s' :
  findFreePort env s = Ret r s' → tun s' = tun s.
Proof.
  unfold findFreePort, Listen. go_unfold. simpl.
  destruct (net_Listen env (w_log (world s)) ":0") as [err | port]; simpl;
    intros H; injection H as _ <-; reflexivity.
Qed.

(** The transport block touches neither the port, nor the listener, nor
    the stop channel. *)
Lemma Start_transport_frame (env : Env) (s : St) r s' :
  Start_transport env s = Ret r s' →
  localPort (tun s') = localPort (tun s) ∧
  server (tun s') = server (tun s) ∧
  stopChan (tun s') = stopChan (tun s).
Proof.
  destruct s as [[? ? ? ? ? ? bh ? bu bk lp srv bc tc ch] w].
  go_start. cbn. go_cases.
  all: go_inj; cbn; auto.
Qed.

Lemma Start_transport_failure (env : Env) (s : St) (p : Z) (s1 : St) err s' :
  localPort (tun s) = 0 →
  findFreePort env s = Ret (p, None) s1 →
  Start_transport env (mkSt (set_localPort p (tun s1)) (world s1)) = Ret (Some err) s' →
  Start env s = Ret (0, Some err) s' ∧
  localPort (tun s') = p ∧ server (tun s') = server (tun s1).
Proof.
  intros Hidle Hprobe Htransport.
  pose proof (Start_transport_frame _ _ _ _ Htransport) as (Hport & Hsrv & _).
  split; [| split; [exact Hport | exact Hsrv]].
  unfold Start. go_unfold. rewrite Hidle. cbn.
  rewrite Hprobe. cbn. rewrite Htransport. reflexivity.
Qed.

(** C1. When the port probe succeeds and the transport block then fails
    (bastion, relay, key, handshake or direct dial), [Start] returns that
    error and leaves [localPort] at the probed port instead of 0. *)
Theorem Start_failed_keeps_port (env : Env) (s : St) (p : Z) (s1 : St) err s' :
  localPort (tun s) = 0 →
  findFreePort env s = Ret (p, None) s1 →
  Start_transport env (mkSt (set_localPort p (tun s1)) (world s1)) = Ret (Some err) s' →
  Start env s = Ret (0, Some err) s' ∧ localPort (tun s') = p.
Proof.
  intros Hidle Hprobe Htransport.
  destruct (Start_transport_failure env s p s1 err s' Hidle Hprobe Htransport)
    as (Hstart & Hport & _).
  split; assumption.
Qed.

(** The laboratory's tunnel whose key file is missing: the probe, and the
    failed start. *)
Definition nokey_probed : St := final (findFreePort lab (mkSt nokey_tunnel boot)).
Definition nokey_failed : St := final (Start lab (mkSt nokey_tunnel boot)).
Definition nokey_error : error :=
  Errorf "failed to connect to SSH host"
    (Errorf "failed to read SSH key file" (LibErr "no such file or directory")).

Lemma Start_failed_keeps_port_witness :
  localPort (tun (mkSt nokey_tunnel boot)) = 0 ∧
  findFreePort lab (mkSt nokey_tunnel boot) = Ret (40000, None) nokey_probed ∧
  Start_transport lab (mkSt (set_localPort 40000 (tun nokey_probed)) (world nokey_probed))
    = Ret (Some nokey_error) nokey_failed ∧
  Start lab (mkSt nokey_tunnel boot) = Ret (0, Some nokey_error) nokey_failed ∧
  localPort (tun nokey_failed) = 40000.
Proof.
  split; [reflexivity |]. split; [vm_compute; reflexivity |].
  split; [vm_compute; reflexivity |].
  apply (Start_failed_keeps_port lab (mkSt nokey_tunnel boot) 40000 nokey_probed
           nokey_error nokey_failed); vm_compute; reflexivity.
Defined.

(** The first equivalence of the lifecycle invariant: a port is held
    exactly when a listener is. *)
Definition port_iff_listener (t : SSHTunnel) : Prop :=
  localPort t ≠ 0 ↔ server t ≠ None.

(** C4. From a tunnel holding no port and no listener, a start whose probe
    yields a nonzero port and whose transport block fails returns an error
    with a port held and no listener; the next [Start] then reports that
    port as if the tunnel were up. *)
Theorem failed_Start_breaks_port_iff_listener
    (env : Env) (s : St) (p : Z) (s1 : St) err s' :
  localPort (tun s) = 0 →
  server (tun s) = None →
  findFreePort env s = Ret (p, None) s1 →
  p ≠ 0 →
  Start_transport env (mkSt (set_localPort p (tun s1)) (world s1)) = Ret (Some err) s' →
  port_iff_listener (tun s) ∧
  Start env s = Ret (0, Some err) s' ∧
  ¬ port_iff_listener (tun s') ∧
  ∀ w : World, Start env (mkSt (tun s') w) = Ret (p, None) (mkSt (tun s') w).
Proof.
  intros Hidle Hsrv Hprobe Hp Htransport.
  destruct (Start_transport_failure env s p s1 err s' Hidle Hprobe Htransport)
    as (Hstart & Hport & Hsrv').
  pose proof (findFreePort_frame env s _ s1 Hprobe) as Htun.
  rewrite Htun, Hsrv in Hsrv'.
  unfold port_iff_listener.
  split; [rewrite Hidle, Hsrv; tauto |].
  split; [exact Hstart |].
  split.
  - rewrite Hport, Hsrv'. intros [Hl _]. exact (Hl Hp eq_refl).
  - intros w. unfold Start. go_unfold. cbn [tun]. rewrite Hport.
    destruct (Z.eqb_spec p 0) as [-> | _]; [contradiction | reflexivity].
Qed.

Lemma failed_Start_breaks_port_iff_listener_witness :
  port_iff_listener (tun (mkSt nokey_tunnel boot)) ∧
  Start lab (mkSt nokey_tunnel boot) = Ret (0, Some nokey_error) nokey_failed ∧
  ¬ port_iff_listener (tun nokey_failed) ∧
  ∀ w : World,
    Start lab (mkSt (tun nokey_failed) w) = Ret (40000, None) (mkSt (tun nokey_failed) w).
Proof.
  apply (failed_Start_breaks_port_iff_listener lab (mkSt nokey_tunnel boot) 40000
           nokey_probed nokey_error nokey_failed);
    [reflexivity | reflexivity | vm_compute; reflexivity | lia | vm_compute; reflexivity].
Defined.


(** ** The bastion chain *)

Lemma closed_now (h : handle) (X : gset handle) : h ∉ X ∖ {[h]}.
Proof. rewrite elem_of_difference, elem_of_singleton. tauto. Qed.

Lemma closed_before (h h' : handle) (X : gset handle) : h ∉ X → h ∉ X ∖ {[h']}.
Proof. rewrite elem_of_difference. tauto. Qed.

Ltac closed := repeat first [apply closed_now | apply closed_before].

Ltac log_eq := unfold logged; cbn; rewrite <- ?app_assoc; reflexivity.

(** One failing run, matched against the six ways a chained start can
    fail. *)
Ltac chain_case :=
  first
  [ left; eexists; split; [reflexivity | log_eq]
  | right; left; do 3 eexists;
    split; [reflexivity |]; split; [first [eassumption | reflexivity] |]; split; [log_eq |];
    split; [first [left; reflexivity | right; eexists; reflexivity] | reflexivity]
  | do 2 right; left; do 3 eexists;
    split; [reflexivity |]; split; [first [eassumption | reflexivity] |]; split; [log_eq | cbn; closed]
  | do 3 right; left; do 4 eexists;
    split; [reflexivity |]; split; [first [eassumption | reflexivity] |]; split; [first [eassumption | reflexivity] |];
    split; [log_eq |]; split; cbn; closed
  | do 4 right; left; do 5 eexists;
    split; [reflexivity |]; split; [first [eassumption | reflexivity] |]; split; [first [eassumption | reflexivity] |];
    split; [log_eq |]; split; cbn; closed
  | do 5 right; eexists;
    split; [reflexivity |]; split; [unfold idle; cbn; auto |]; split; cbn; closed ].

(** The six ways a chained start can return an error, read back from the
    log.  With [n] the first unused handle, the probe takes [n], the bastion
    session [n+1] and the relay channel [n+2]. *)
Definition chained_failure (env : Env) (s : St) (err : error) (s' : St) : Prop :=
  let t := tun s in
  let n := w_next (world s) in
  let bu := if String.eqb (bastionUser t) "" then sshUser t else bastionUser t in
  let bk := if String.eqb (bastionKeyPath t) "" then sshKeyPath t else bastionKeyPath t in
  let baddr := hostport (bastionHost t) (bastionPort t) in
  let taddr := hostport (sshHost t) (sshPort t) in
  ((∃ e, err = Errorf "failed to find free port" e ∧
         logged [EListen ":0" None] s s')
   ∨
   (∃ e path rest,
       err = Errorf "failed to connect to bastion" e ∧
       loadSSHKey_path env bk = Some path ∧
       logged ([EListen ":0" (Some n); EClose n; EReadFile path] ++ rest) s s' ∧
       (rest = [] ∨ ∃ key, rest = [ESSHDial baddr bu key None]) ∧
       w_next (world s') = S n)
   ∨
   (∃ e path key,
       err = Errorf "failed to dial target through bastion" e ∧
       loadSSHKey_path env bk = Some path ∧
       logged [EListen ":0" (Some n); EClose n; EReadFile path;
               ESSHDial baddr bu key (Some (S n));
               ERelayDial (S n) taddr None;
               EClose (S n)] s s' ∧
       (S n ∉ w_open (world s')))
   ∨
   (∃ e path key path2,
       err = Errorf "failed to load SSH key" e ∧
       loadSSHKey_path env bk = Some path ∧
       loadSSHKey_path env (sshKeyPath t) = Some path2 ∧
       logged [EListen ":0" (Some n); EClose n; EReadFile path;
               ESSHDial baddr bu key (Some (S n));
               ERelayDial (S n) taddr (Some (S (S n)));
               EReadFile path2;
               EClose (S (S n)); EClose (S n)] s s' ∧
       (S (S n) ∉ w_open (world s')) ∧ (S n ∉ w_open (world s')))
   ∨
   (∃ e path key path2 key2,
       err = Errorf "failed to create SSH connection through bastion" e ∧
       loadSSHKey_path env bk = Some path ∧
       loadSSHKey_path env (sshKeyPath t) = Some path2 ∧
       logged [EListen ":0" (Some n); EClose n; EReadFile path;
               ESSHDial baddr bu key (Some (S n));
               ERelayDial (S n) taddr (Some (S (S n)));
               EReadFile path2;
               EHandshake (S (S n)) taddr (sshUser t) key2 false;
               EClose (S (S n)); EClose (S n)] s s' ∧
       (S (S n) ∉ w_open (world s')) ∧ (S n ∉ w_open (world s')))
   ∨
   (∃ e, err = Errorf "failed to create local listener" e ∧
         idle (tun s') ∧
         (S (S n) ∉ w_open (world s')) ∧ (S n ∉ w_open (world s')))).

(** Every chained start that returns an error returns port 0 and fails in
    one of the six ways. *)
Lemma Start_chained_failure_cases (env : Env) (s : St) (z : Z) (err : error) (s' : St) :
  localPort (tun s) = 0 →
  bastionHost (tun s) ≠ "" →
  Start env s = Ret (z, Some err) s' →
  z = 0 ∧ chained_failure env s err s'.
Proof.
  unfold chained_failure.
  destruct s as [[? ? ? ? ? ? bh ? bu bk lp srv bc tc ch] w].
  cbn [tun world localPort bastionHost]. intros -> Hbh.
  destruct bh as [| a bh']; [congruence | clear Hbh].
  cbv zeta. go_start. cbn.
  go_cases.
  all: go_inj; (split; [reflexivity |]).
  all: chain_case.
Qed.

(** The machine right after a probe that returned [p]: the port is stored
    before anything is dialled. *)
Definition probed (p : Z) (s0 : St) : St :=
  mkSt (set_localPort p (tun s0)) (world s0).

(** The machine after the bastion client [b] has been stored and the relay
    channel to [taddr] opened through it; the channel takes the first unused
    handle. *)
Definition relayed (b : handle) (taddr : string) (s2 : St) : St :=
  let w := world s2 in
  mkSt (set_bastionConn (Some b) (tun s2))
    (mkWorld (w_log w ++ [ERelayDial b taddr (Some (w_next w))])
       (S (w_next w)) ({[w_next w]} ∪ w_open w)).

(** The three steps of a chained start, each with what its failure
    yields.  [s0] is the machine the probe left, [p] the port it found. *)
Definition chained_steps (env : Env) (s : St) (p : Z) (s0 : St) : Prop :=
  let t := tun s in
  let bu := if String.eqb (bastionUser t) "" then sshUser t else bastionUser t in
  let bk := if String.eqb (bastionKeyPath t) "" then sshKeyPath t else bastionKeyPath t in
  let taddr := hostport (sshHost t) (sshPort t) in
  let s1 := probed p s0 in
  (∀ e s2,
      createSSHClient env (bastionHost t) (bastionPort t) bu bk s1 = Ret (inl e) s2 →
      Start env s = Ret (0, Some (Errorf "failed to connect to bastion" e)) s2 ∧
      w_next (world s2) = w_next (world s1) ∧
      w_open (world s2) = w_open (world s1))
  ∧
  (∀ b s2,
      createSSHClient env (bastionHost t) (bastionPort t) bu bk s1 = Ret (inr b) s2 →
      (∀ e,
          client_Dial env (w_log (world s2)) b taddr = Some e →
          ∃ s',
            Start env s
            = Ret (0, Some (Errorf "failed to dial target through bastion" e)) s' ∧
            logged [ERelayDial b taddr None; EClose b] s2 s' ∧
            w_next (world s') = w_next (world s2) ∧
            (b ∉ w_open (world s')))
      ∧
      (client_Dial env (w_log (world s2)) b taddr = None →
       let c := w_next (world s2) in
       let s3 := relayed b taddr s2 in
       (∀ e s4,
           loadSSHKey env (sshKeyPath t) s3 = Ret (inl e) s4 →
           ∃ s',
             Start env s = Ret (0, Some (Errorf "failed to load SSH key" e)) s' ∧
             logged [EClose c; EClose b] s4 s' ∧
             (c ∉ w_open (world s')) ∧ (b ∉ w_open (world s')))
       ∧
       (∀ key s4 e,
           loadSSHKey env (sshKeyPath t) s3 = Ret (inr key) s4 →
           ssh_NewClientConn env (w_log (world s4)) c taddr (sshUser t) key = Some e →
           ∃ s',
             Start env s
             = Ret (0, Some (Errorf "failed to create SSH connection through bastion" e))
                 s' ∧
             logged [EHandshake c taddr (sshUser t) key false; EClose c; EClose b] s4 s' ∧
             (c ∉ w_open (world s')) ∧ (b ∉ w_open (world s'))))).

(** A client that could not be created has opened nothing. *)
Lemma createSSHClient_failure_frame (env : Env) (h : string) (p : Z) (u k : string)
    (s : St) (e : error) (s' : St) :
  createSSHClient env h p u k s = Ret (inl e) s' →
  w_next (world s') = w_next (world s) ∧ w_open (world s') = w_open (world s).
Proof.
  unfold createSSHClient, loadSSHKey, Dial. go_unfold. cbn.
  go_cases.
  all: go_inj; cbn; auto.
Qed.

(** The key loader leaves the tunnel object alone. *)
Lemma loadSSHKey_tun (env : Env) (k : string) (s : St) r (s' : St) :
  loadSSHKey env k s = Ret r s' → tun s' = tun s.
Proof.
  unfold loadSSHKey. go_unfold. cbn.
  go_cases.
  all: go_inj; reflexivity.
Qed.

Lemma createSSHClient_tun (env : Env) (h : string) (p : Z) (u k : string)
    (s : St) r (s' : St) :
  createSSHClient env h p u k s = Ret r s' → tun s' = tun s.
Proof.
  unfold createSSHClient, loadSSHKey, Dial. go_unfold. cbn.
  go_cases.
  all: go_inj; reflexivity.
Qed.

(** C7. In chained mode, after a successful probe: the bastion is dialled at
    [bastionHost:bastionPort] as [bastionUser] with [bastionKeyPath], each
    replaced by the first hop's value when empty.  If that client cannot be
    created, [Start] returns port 0 and the error as a bastion failure, and
    nothing was opened.  If the relay through the bastion fails, [Start]
    closes the bastion session and returns a relay failure.  If the target
    key cannot be loaded, or the handshake over the relay fails, [Start]
    closes the relay channel, then the bastion session, and returns the
    failure of that step.  Conversely every error a chained start returns is
    one of the six of [chained_failure], with port 0. *)
Theorem Start_chained_failure (env : Env) (s : St) (p : Z) (s0 : St) :
  localPort (tun s) = 0 →
  bastionHost (tun s) ≠ "" →
  findFreePort env s = Ret (p, None) s0 →
  chained_steps env s p s0 ∧
  ∀ z err s', Start env s = Ret (z, Some err) s' → z = 0 ∧ chained_failure env s err s'.
Proof.
  intros Hidle Hbh Hprobe.
  split; [| intros z err s'; apply Start_chained_failure_cases; assumption].
  pose proof (findFreePort_frame env s _ s0 Hprobe) as Htun.
  assert (Hfail : ∀ err s', Start_transport env (probed p s0) = Ret (Some err) s' →
                            Start env s = Ret (0, Some err) s').
  { intros err s' Ht.
    exact (proj1 (Start_transport_failure env s p s0 err s' Hidle Hprobe Ht)). }
  assert (Hchain : negb (String.eqb (bastionHost (tun s)) "") = true).
  { destruct (String.eqb_spec (bastionHost (tun s)) ""); [contradiction | reflexivity]. }
  unfold chained_steps. cbv zeta.
  set (bu := if String.eqb (bastionUser (tun s)) "" then sshUser (tun s)
             else bastionUser (tun s)).
  set (bk := if String.eqb (bastionKeyPath (tun s)) "" then sshKeyPath (tun s)
             else bastionKeyPath (tun s)).
  set (taddr := hostport (sshHost (tun s)) (sshPort (tun s))).
  assert (Hstep : Start_transport env (probed p s0)
    = match createSSHClient env (bastionHost (tun s)) (bastionPort (tun s)) bu bk
              (probed p s0) with
      | Ret (inl err) s2 => Ret (Some (Errorf "failed to connect to bastion" err)) s2
      | Ret (inr b) s2 =>
          match client_Dial env (w_log (world s2)) b taddr with
          | Some err =>
              Ret (Some (Errorf "failed to dial target through bastion" err))
                (mkSt (set_bastionConn (Some b) (tun s2))
                   (mkWorld ((w_log (world s2) ++ [ERelayDial b taddr None]) ++ [EClose b])
                      (w_next (world s2)) (w_open (world s2) ∖ {[b]})))
          | None =>
              match loadSSHKey env (sshKeyPath (tun s)) (relayed b taddr s2) with
              | Ret (inl err) s4 =>
                  Ret (Some (Errorf "failed to load SSH key" err))
                    (mkSt (tun s4)
                       (mkWorld ((w_log (world s4) ++ [EClose (w_next (world s2))])
                                 ++ [EClose b])
                          (w_next (world s4))
                          ((w_open (world s4) ∖ {[w_next (world s2)]}) ∖ {[b]})))
              | Ret (inr key) s4 =>
                  match ssh_NewClientConn env (w_log (world s4)) (w_next (world s2)) taddr
                          (sshUser (tun s)) key with
                  | Some err =>
                      Ret (Some (Errorf "failed to create SSH connection through bastion" err))
                        (mkSt (tun s4)
                           (mkWorld (((w_log (world s4)
                                       ++ [EHandshake (w_next (world s2)) taddr
                                             (sshUser (tun s)) key false])
                                      ++ [EClose (w_next (world s2))]) ++ [EClose b])
                              (w_next (world s4))
                              ((w_open (world s4) ∖ {[w_next (world s2)]}) ∖ {[b]})))
                  | None =>
                      Ret None
                        (mkSt (set_targetConn (Some (w_next (world s2))) (tun s4))
                           (mkWorld (w_log (world s4)
                                     ++ [EHandshake (w_next (world s2)) taddr
                                           (sshUser (tun s)) key true])
                              (w_next (world s4)) (w_open (world s4))))
                  end
              | Panic q s4 => Panic q s4
              end
          end
      | Panic q s2 => Panic q s2
      end).
  { unfold Start_transport, RelayDial, NewClientConn, probed, relayed. go_unfold.
    cbn [tun world]. rewrite Htun.
    change (bastionHost (set_localPort p (tun s))) with (bastionHost (tun s)).
    rewrite Hchain.
    change (bastionUser (set_localPort p (tun s))) with (bastionUser (tun s)).
    change (bastionKeyPath (set_localPort p (tun s))) with (bastionKeyPath (tun s)).
    change (sshUser (set_localPort p (tun s))) with (sshUser (tun s)).
    change (sshKeyPath (set_localPort p (tun s))) with (sshKeyPath (tun s)).
    change (sshHost (set_localPort p (tun s))) with (sshHost (tun s)).
    change (sshPort (set_localPort p (tun s))) with (sshPort (tun s)).
    change (bastionPort (set_localPort p (tun s))) with (bastionPort (tun s)).
    fold bu bk taddr.
    destruct (createSSHClient env (bastionHost (tun s)) (bastionPort (tun s)) bu bk
                (mkSt (set_localPort p (tun s)) (world s0))) as [[err | b] s2 | q s2];
      cbn [tun world]; try reflexivity.
    destruct (client_Dial env (w_log (world s2)) b taddr) as [err |];
      cbn [tun world w_log w_next w_open]; [reflexivity |].
    destruct (loadSSHKey env (sshKeyPath (tun s)) _) as [[err | key] s4 | q s4];
      cbn [tun world w_log w_next w_open]; try reflexivity.
    destruct (ssh_NewClientConn env (w_log (world s4)) (w_next (world s2)) taddr
                (sshUser (tun s)) key) as [err |];
      cbn [tun world w_log w_next w_open]; reflexivity. }
  split.
  - intros e s2 Hc. rewrite Hc in Hstep.
    split; [exact (Hfail _ _ Hstep) |].
    exact (createSSHClient_failure_frame env _ _ _ _ _ e s2 Hc).
  - intros b s2 Hc. rewrite Hc in Hstep. split.
    + intros e Hd. rewrite Hd in Hstep.
      eexists. split; [exact (Hfail _ _ Hstep) |].
      split; [log_eq |]. split; [reflexivity | apply closed_now].
    + intros Hd. rewrite Hd in Hstep. split.
      * intros e s4 Hk. rewrite Hk in Hstep.
        eexists. split; [exact (Hfail _ _ Hstep) |].
        split; [log_eq |]. cbn. split; closed.
      * intros key s4 e Hk Hh. rewrite Hk, Hh in Hstep.
        eexists. split; [exact (Hfail _ _ Hstep) |].
        split; [log_eq |]. cbn. split; closed.
Qed.

(** The laboratory's chained tunnel against a bastion that refuses to
    relay. *)
Definition relay_refused : St := final (Start lab_norelay (mkSt chained_tunnel boot)).
Definition relay_error : error :=
  Errorf "failed to dial target through bastion" (LibErr "administratively prohibited").
Definition chained_probed : St :=
  final (findFreePort lab_norelay (mkSt chained_tunnel boot)).

Lemma Start_chained_failure_witness :
  localPort (tun (mkSt chained_tunnel boot)) = 0 ∧
  bastionHost (tun (mkSt chained_tunnel boot)) ≠ "" ∧
  findFreePort lab_norelay (mkSt chained_tunnel boot) = Ret (40000, None) chained_probed ∧
  chained_steps lab_norelay (mkSt chained_tunnel boot) 40000 chained_probed ∧
  ∀ z err s',
    Start lab_norelay (mkSt chained_tunnel boot) = Ret (z, Some err) s' →
    z = 0 ∧ chained_failure lab_norelay (mkSt chained_tunnel boot) err s'.
Proof.
  split; [reflexivity |]. split; [discriminate |].
  split; [vm_compute; reflexivity |].
  apply (Start_chained_failure lab_norelay (mkSt chained_tunnel boot) 40000 chained_probed);
    [reflexivity | discriminate | vm_compute; reflexivity].
Defined.

(** The same failed start, seen from the tunnel: it has kept the probed
    port and the handle of the bastion session it has just closed. *)
Example relay_refused_keeps_port_and_handle :
  localPort (tun relay_refused) = 40000 ∧
  bastionConn (tun relay_refused) = Some 1%nat ∧
  w_open (world relay_refused) = ∅.
Proof. vm_compute. auto. Qed.

(** *** The failing steps, run

    Four laboratories, one per step that can fail, and the run of the
    chained tunnel in each. *)

(** No bastion answers. *)
Definition lab_nobastion : Env :=
  {| ExpandEnv := ExpandEnv lab;
     UserHomeDir := UserHomeDir lab;
     Join := Join lab;
     ReadFile := ReadFile lab;
     ParsePrivateKey := ParsePrivateKey lab;
     net_Listen := net_Listen lab;
     ssh_Dial := fun _ _ _ _ => Some (LibErr "connection refused");
     client_Dial := client_Dial lab;
     ssh_NewClientConn := ssh_NewClientConn lab;
     net_Accept := net_Accept lab;
     ssh_OpenChannel := ssh_OpenChannel lab |}.

(** The target rejects the handshake over the relay. *)
Definition lab_nohandshake : Env :=
  {| ExpandEnv := ExpandEnv lab;
     UserHomeDir := UserHomeDir lab;
     Join := Join lab;
     ReadFile := ReadFile lab;
     ParsePrivateKey := ParsePrivateKey lab;
     net_Listen := net_Listen lab;
     ssh_Dial := ssh_Dial lab;
     client_Dial := client_Dial lab;
     ssh_NewClientConn := fun _ _ _ _ _ => Some (LibErr "unable to authenticate");
     net_Accept := net_Accept lab;
     ssh_OpenChannel := ssh_OpenChannel lab |}.

(** A chained tunnel whose bastion is reached as [jump] with its own key,
    and one whose target key is missing while the bastion's exists. *)
Definition jump_tunnel : SSHTunnel :=
  NewSSHTunnel "ssh.example" 22 "backup" "/keys/id" "db" 3306
    "bastion.example" 2222 "jump" "/keys/id".
Definition jump_nokey_tunnel : SSHTunnel :=
  NewSSHTunnel "ssh.example" 22 "backup" "/keys/missing" "db" 3306
    "bastion.example" 2222 "jump" "/keys/id".
Definition jump_tilde_tunnel : SSHTunnel :=
  NewSSHTunnel "ssh.example" 22 "backup" "~" "db" 3306
    "bastion.example" 2222 "jump" "/keys/id".

Example chained_bastion_down :
  ∃ s',
    Start lab_nobastion (mkSt chained_tunnel boot)
    = Ret (0, Some (Errorf "failed to connect to bastion"
                      (Errorf "failed to connect to bastion.example:22"
                         (LibErr "connection refused")))) s' ∧
    w_log (world s')
    = [EListen ":0" (Some 0%nat); EClose 0%nat; EReadFile "/keys/id";
       ESSHDial "bastion.example:22" "backup" "ed25519" None] ∧
    w_next (world s') = 1%nat ∧ w_open (world s') = ∅.
Proof. eexists. vm_compute. auto. Qed.

Example chained_relay_refused :
  ∃ s',
    Start lab_norelay (mkSt jump_tunnel boot)
    = Ret (0, Some (Errorf "failed to dial target through bastion"
                      (LibErr "administratively prohibited"))) s' ∧
    w_log (world s')
    = [EListen ":0" (Some 0%nat); EClose 0%nat; EReadFile "/keys/id";
       ESSHDial "bastion.example:2222" "jump" "ed25519" (Some 1%nat);
       ERelayDial 1%nat "ssh.example:22" None; EClose 1%nat] ∧
    w_open (world s') = ∅.
Proof. eexists. vm_compute. auto. Qed.

Example chained_target_key_missing :
  ∃ s',
    Start lab (mkSt jump_nokey_tunnel boot)
    = Ret (0, Some (Errorf "failed to load SSH key"
                      (Errorf "failed to read SSH key file"
                         (LibErr "no such file or directory")))) s' ∧
    w_log (world s')
    = [EListen ":0" (Some 0%nat); EClose 0%nat; EReadFile "/keys/id";
       ESSHDial "bastion.example:2222" "jump" "ed25519" (Some 1%nat);
       ERelayDial 1%nat "ssh.example:22" (Some 2%nat);
       EReadFile "/keys/missing"; EClose 2%nat; EClose 1%nat] ∧
    w_open (world s') = ∅.
Proof. eexists. vm_compute. auto. Qed.

Example chained_handshake_rejected :
  ∃ s',
    Start lab_nohandshake (mkSt jump_tunnel boot)
    = Ret (0, Some (Errorf "failed to create SSH connection through bastion"
                      (LibErr "unable to authenticate"))) s' ∧
    w_log (world s')
    = [EListen ":0" (Some 0%nat); EClose 0%nat; EReadFile "/keys/id";
       ESSHDial "bastion.example:2222" "jump" "ed25519" (Some 1%nat);
       ERelayDial 1%nat "ssh.example:22" (Some 2%nat);
       EReadFile "/keys/id";
       EHandshake 2%nat "ssh.example:22" "backup" "ed25519" false;
       EClose 2%nat; EClose 1%nat] ∧
    w_open (world s') = ∅.
Proof. eexists. vm_compute. auto. Qed.

(** Outside the three steps: a target key path shorter than two bytes
    makes the third step panic in the key loader, after the bastion session
    and the relay channel were opened; no error is returned and neither is
    closed. *)
Example chained_short_key_panics :
  ∃ s',
    Start lab (mkSt jump_tilde_tunnel boot) = Panic SliceBoundsOutOfRange s' ∧
    (1%nat ∈ w_open (world s')) ∧ (2%nat ∈ w_open (world s')).
Proof.
  eexists. split; [vm_compute; reflexivity |].
  split; vm_compute; reflexivity.
Qed.

(** ** The forwarder and its payload *)

(** A turn of the forwarder that accepts a connection asks the target
    session for a [direct-tcpip] channel with the payload [wire]. *)
Lemma forwardTunnel_iter_accept (env : Env) (s : St) (l target : handle) :
  stopChan (tun s) = ChanOpen →
  server (tun s) = Some l →
  targetConn (tun s) = Some target →
  net_Accept env (w_log (world s)) l = AcceptConn →
  ∃ r tail s',
    forwardTunnel_iter env s = Ret LoopContinue s' ∧
    logged (EAccept l (Some (w_next (world s)))
            :: EOpenChannel target "direct-tcpip" (wire (tun s)) r :: tail) s s'.
Proof.
  intros Hch Hsrv Htc Hacc.
  unfold forwardTunnel_iter. go_unfold.
  rewrite Hch, Hsrv. cbn. rewrite Hacc. cbn.
  rewrite channelData_wire, Htc. cbn.
  destruct (ssh_OpenChannel _ _ _ _ _) as [err |]; cbn.
  - eexists None, _, _. split; [reflexivity | log_eq].
  - eexists (Some _), _, _. split; [reflexivity | log_eq].
Qed.

(** C8. For every accepted local connection the forwarder sends a
    [direct-tcpip] request whose payload decodes, by the standard format, to
    the remote host, the remote port reduced to 32 bits and originator
    port 0; the originator address it carries is the four raw bytes
    127, 0, 0, 1, which is not the text 127.0.0.1. *)
Theorem relay_request_decodes (env : Env) (s : St) (l target : handle) :
  stopChan (tun s) = ChanOpen →
  server (tun s) = Some l →
  targetConn (tun s) = Some target →
  net_Accept env (w_log (world s)) l = AcceptConn →
  Z.of_nat (String.length (remoteHost (tun s))) < 2 ^ 32 →
  ∃ data r tail s',
    forwardTunnel_iter env s = Ret LoopContinue s' ∧
    logged (EAccept l (Some (w_next (world s)))
            :: EOpenChannel target "direct-tcpip" data r :: tail) s s' ∧
    decode_direct_tcpip data
    = Some (mkRelayRequest (remoteHost (tun s)) (remotePort (tun s) mod 2 ^ 32)
              origin_sent 0) ∧
    String.length origin_sent = 4%nat ∧
    origin_sent ≠ "127.0.0.1".
Proof.
  intros Hch Hsrv Htc Hacc Hlen.
  destruct (forwardTunnel_iter_accept env s l target Hch Hsrv Htc Hacc)
    as (r & tail & s' & Hrun & Hlog).
  destruct (channelData_decodes (tun s) Hlen) as (data & Hdata & Hdec & Hfour & Hne).
  rewrite channelData_wire in Hdata. injection Hdata as <-.
  exists (wire (tun s)), r, tail, s'. auto.
Qed.

Lemma relay_request_decodes_witness :
  stopChan (tun started) = ChanOpen ∧
  server (tun started) = Some 2%nat ∧
  targetConn (tun started) = Some 1%nat ∧
  net_Accept lab (w_log (world started)) 2%nat = AcceptConn ∧
  Z.of_nat (String.length (remoteHost (tun started))) < 2 ^ 32 ∧
  ∃ data r tail s',
    forwardTunnel_iter lab started = Ret LoopContinue s' ∧
    logged (EAccept 2%nat (Some (w_next (world started)))
            :: EOpenChannel 1%nat "direct-tcpip" data r :: tail) started s' ∧
    decode_direct_tcpip data
    = Some (mkRelayRequest (remoteHost (tun started)) (remotePort (tun started) mod 2 ^ 32)
              origin_sent 0) ∧
    String.length origin_sent = 4%nat ∧
    origin_sent ≠ "127.0.0.1".
Proof.
  split; [vm_compute; reflexivity |]. split; [vm_compute; reflexivity |].
  split; [vm_compute; reflexivity |]. split; [vm_compute; reflexivity |].
  split; [vm_compute; reflexivity |].
  apply (relay_request_decodes lab started 2%nat 1%nat); vm_compute; reflexivity.
Defined.

(** * Further properties of the tunnel *)

(** ** Starts that succeed *)

(** The configuration of a tunnel: the ten fields the constructor is
    given. *)
Definition same_config (t t' : SSHTunnel) : Prop :=
  sshHost t' = sshHost t ∧ sshPort t' = sshPort t ∧ sshUser t' = sshUser t ∧
  sshKeyPath t' = sshKeyPath t ∧ remoteHost t' = remoteHost t ∧
  remotePort t' = remotePort t ∧ bastionHost t' = bastionHost t ∧
  bastionPort t' = bastionPort t ∧ bastionUser t' = bastionUser t ∧
  bastionKeyPath t' = bastionKeyPath t.

(** What a successful direct start has done, with [n] the first unused
    handle: the probe took [n], the session [n+1], the listener [n+2]. *)
Definition direct_started (env : Env) (s : St) (p : Z) (s' : St) : Prop :=
  let t := tun s in
  let n := w_next (world s) in
  ∃ path key,
    net_Listen env (w_log (world s)) ":0" = inr p ∧
    loadSSHKey_path env (sshKeyPath t) = Some path ∧
    logged [EListen ":0" (Some n); EClose n; EReadFile path;
            ESSHDial (hostport (sshHost t) (sshPort t)) (sshUser t) key (Some (S n));
            EListen (hostport "127.0.0.1" p) (Some (S (S n)));
            EGo; ESleep 500] s s' ∧
    loopback_addr (hostport "127.0.0.1" p) = true ∧
    tun s' = set_server (Some (S (S n)))
               (set_targetConn (Some (S n)) (set_localPort p t)) ∧
    (n ∉ w_open (world s')) ∧ (S n ∈ w_open (world s')) ∧ (S (S n) ∈ w_open (world s')).

Lemma opened_now (h : handle) (X : gset handle) : h ∈ {[h]} ∪ X.
Proof. rewrite elem_of_union, elem_of_singleton. tauto. Qed.

Lemma opened_before (h h' : handle) (X : gset handle) : h ∈ X → h ∈ {[h']} ∪ X.
Proof. rewrite elem_of_union. tauto. Qed.

Lemma closed_fresh (h h' : handle) (X : gset handle) : h ≠ h' → h ∉ X → h ∉ {[h']} ∪ X.
Proof. rewrite elem_of_union, elem_of_singleton. tauto. Qed.

(** The address of the local listener names the loopback interface. *)
Lemma loopback_hostport (p : Z) : loopback_addr (hostport "127.0.0.1" p) = true.
Proof. unfold loopback_addr, hostport. cbn. destruct (itoa p); reflexivity. Qed.

Ltac opened := repeat first [apply opened_now | apply opened_before].

(** Inclusions between sets of handles built by opening and closing. *)
Ltac handles :=
  apply elem_of_subseteq; intros ?;
  repeat first [rewrite elem_of_difference | rewrite elem_of_union
               | rewrite elem_of_singleton];
  tauto.

(** X1. A direct start that succeeds from a tunnel holding no port has
    probed [":0"], read the key, dialled [sshHost:sshPort] as [sshUser],
    bound the local listener on [127.0.0.1] at the probed port, launched the
    forwarder and waited; it returns the probed port and holds the session
    and the listener, both open. *)
Theorem Start_direct_success (env : Env) (s : St) (p : Z) (s' : St) :
  localPort (tun s) = 0 →
  bastionHost (tun s) = "" →
  Start env s = Ret (p, None) s' →
  direct_started env s p s'.
Proof.
  unfold direct_started.
  destruct s as [[? ? ? ? ? ? bh ? bu bk lp srv bc tc ch] w].
  cbn [tun world localPort bastionHost]. intros -> ->.
  cbv zeta. go_start. cbn.
  go_cases.
  all: go_inj.
  all: do 2 eexists.
  all: split; [reflexivity |]; split; [first [eassumption | reflexivity] |].
  all: split; [log_eq |]; split; [apply loopback_hostport |]; split; [reflexivity |].
  all: cbn; split; [| split; opened].
  all: apply closed_fresh; [lia |]; apply closed_fresh; [lia |]; apply closed_now.
Qed.

Lemma Start_direct_success_witness :
  localPort (tun (mkSt direct_tunnel boot)) = 0 ∧
  bastionHost (tun (mkSt direct_tunnel boot)) = "" ∧
  Start lab (mkSt direct_tunnel boot) = Ret (40000, None) started ∧
  direct_started lab (mkSt direct_tunnel boot) 40000 started.
Proof.
  split; [reflexivity |]. split; [reflexivity |]. split; [vm_compute; reflexivity |].
  apply (Start_direct_success lab (mkSt direct_tunnel boot) 40000 started);
    [reflexivity | reflexivity | vm_compute; reflexivity].
Defined.





(** ** Starts that fail at either end *)

(** The world after one more event. *)
Definition record (e : event) (s : St) : St :=
  mkSt (tun s) (mkWorld (w_log (world s) ++ [e]) (w_next (world s)) (w_open (world s))).

(** X3. When the port probe cannot bind, [Start] returns port 0 and the
    bind error wrapped as a port-allocation failure; the tunnel is exactly
    as it was, and nothing happened in the world but the failed bind. *)
Theorem Start_probe_failure (env : Env) (s : St) (e : error) :
  localPort (tun s) = 0 →
  net_Listen env (w_log (world s)) ":0" = inl e →
  Start env s
  = Ret (0, Some (Errorf "failed to find free port" e)) (record (EListen ":0" None) s).
Proof.
  intros Hidle Hbind. unfold Start, findFreePort, Listen. go_unfold.
  rewrite Hidle. cbn. rewrite Hbind. reflexivity.
Qed.

(** A machine with no port left to hand out. *)
Definition lab_noport : Env :=
  {| ExpandEnv := ExpandEnv lab;
     UserHomeDir := UserHomeDir lab;
     Join := Join lab;
     ReadFile := ReadFile lab;
     ParsePrivateKey := ParsePrivateKey lab;
     net_Listen := fun _ _ => inl (LibErr "address already in use");
     ssh_Dial := ssh_Dial lab;
     client_Dial := client_Dial lab;
     ssh_NewClientConn := ssh_NewClientConn lab;
     net_Accept := net_Accept lab;
     ssh_OpenChannel := ssh_OpenChannel lab |}.

Lemma Start_probe_failure_witness :
  localPort (tun (mkSt direct_tunnel boot)) = 0 ∧
  net_Listen lab_noport (w_log (world (mkSt direct_tunnel boot))) ":0"
  = inl (LibErr "address already in use") ∧
  Start lab_noport (mkSt direct_tunnel boot)
  = Ret (0, Some (Errorf "failed to find free port" (LibErr "address already in use")))
        (record (EListen ":0" None) (mkSt direct_tunnel boot)).
Proof.
  split; [reflexivity |]. split; [reflexivity |].
  apply (Start_probe_failure lab_noport (mkSt direct_tunnel boot)); reflexivity.
Defined.





(** ** Stopping *)

(** The handles a tunnel holds, in the order [Stop] closes them. *)
Definition held (t : SSHTunnel) : list handle :=
  omap id [server t; targetConn t; bastionConn t].

(** X5. On a tunnel whose stop channel is open, [Stop] returns: it closes
    the listener, the target session and the bastion session, in that order
    and only those it holds; afterwards the tunnel holds no port and no
    handle, its stop channel is closed, and its configuration is as
    before. *)
Theorem Stop_closes_held (s : St) :
  stopChan (tun s) = ChanOpen →
  ∃ s1,
    Stop s = Ret tt s1 ∧
    logged (map EClose (held (tun s))) s s1 ∧
    idle (tun s1) ∧ stopChan (tun s1) = ChanClosed ∧
    same_config (tun s) (tun s1) ∧
    w_next (world s1) = w_next (world s) ∧
    (∀ h, h ∈ w_open (world s1) ↔ h ∈ w_open (world s) ∧ h ∉ held (tun s)).
Proof.
  destruct s as [[? ? ? ? ? ? ? ? ? ? ? srv bc tc ch] w].
  cbn [tun stopChan]. intros ->.
  unfold Stop, held, idle, same_config, logged. go_unfold.
  destruct srv as [l |], tc as [c |], bc as [b |]; cbn.
  all: eexists; split; [reflexivity |]; cbn.
  all: split; [rewrite <- ?app_assoc, ?app_nil_r; reflexivity |].
  all: repeat (split; [tauto || reflexivity |]).
  all: intros h;
    repeat first [rewrite elem_of_difference | rewrite elem_of_singleton
                 | rewrite elem_of_cons | rewrite elem_of_nil];
    tauto.
Qed.

Lemma Stop_closes_held_witness :
  stopChan (tun started) = ChanOpen ∧
  ∃ s1,
    Stop started = Ret tt s1 ∧
    logged (map EClose (held (tun started))) started s1 ∧
    idle (tun s1) ∧ stopChan (tun s1) = ChanClosed ∧
    same_config (tun started) (tun s1) ∧
    w_next (world s1) = w_next (world started) ∧
    (∀ h, h ∈ w_open (world s1) ↔ h ∈ w_open (world started) ∧ h ∉ held (tun started)).
Proof.
  split; [vm_compute; reflexivity |].
  apply (Stop_closes_held started). vm_compute; reflexivity.
Defined.

(** What [Stop] leaves open was open before and was not held. *)
Lemma Stop_releases_held (s s1 : St) :
  Stop s = Ret tt s1 →
  same_config (tun s) (tun s1) ∧
  ∀ h, h ∈ w_open (world s1) → h ∈ w_open (world s) ∧ h ∉ held (tun s).
Proof.
  destruct s as [[? ? ? ? ? ? ? ? ? ? ? srv bc tc ch] w].
  unfold Stop, held, same_config. go_unfold.
  destruct ch; cbn; [| discriminate].
  destruct srv as [l |], tc as [c |], bc as [b |]; cbn.
  all: go_inj; cbn.
  all: split; [tauto |].
  all: intros x;
    repeat first [rewrite elem_of_difference | rewrite elem_of_singleton
                 | rewrite elem_of_cons | rewrite elem_of_nil];
    tauto.
Qed.

(** Every open handle was open before or is held by the tunnel. *)
Definition held_or_old (s s1 : St) : Prop :=
  same_config (tun s) (tun s1) ∧
  ∀ h, h ∈ w_open (world s1) → h ∈ w_open (world s) ∨ h ∈ held (tun s1).

Lemma Start_holds_what_it_opens (env : Env) (s : St) (p : Z) (s1 : St) :
  Start env s = Ret (p, None) s1 → held_or_old s s1.
Proof.
  destruct s as [[? ? ? ? ? ? bh ? bu bk lp srv bc tc ch] w].
  go_start. cbn.
  go_cases.
  all: go_inj; unfold held_or_old, same_config, held; cbn.
  all: split; [tauto |].
  all: intros x;
    repeat first [rewrite elem_of_difference | rewrite elem_of_union
                 | rewrite elem_of_singleton | rewrite elem_of_cons
                 | rewrite elem_of_nil];
    tauto.
Qed.

(** X6. A [Start] that succeeds followed by a [Stop] that returns leaves
    nothing behind: the tunnel holds no port and no handle, its
    configuration is unchanged, and no handle is open that was not open
    before the start. *)
Theorem Start_then_Stop_leaks_nothing (env : Env) (s : St) (p : Z) (s1 s2 : St) :
  Start env s = Ret (p, None) s1 →
  Stop s1 = Ret tt s2 →
  idle (tun s2) ∧ same_config (tun s) (tun s2) ∧
  w_open (world s2) ⊆ w_open (world s).
Proof.
  intros Hstart Hstop.
  destruct (Start_holds_what_it_opens env s p s1 Hstart) as [Hcfg1 Hopen1].
  destruct (Stop_releases_held s1 s2 Hstop) as [Hcfg2 Hopen2].
  split; [exact (Stop_leaves_idle s1 s2 Hstop) |].
  split.
  - unfold same_config in *.
    destruct Hcfg1 as (? & ? & ? & ? & ? & ? & ? & ? & ? & ?).
    destruct Hcfg2 as (? & ? & ? & ? & ? & ? & ? & ? & ? & ?).
    repeat split; congruence.
  - apply elem_of_subseteq. intros h Hh.
    destruct (Hopen2 h Hh) as [Hin Hnot].
    destruct (Hopen1 h Hin) as [Hold | Hheld]; [exact Hold | contradiction].
Qed.

Definition wound_down : St := final (Stop started).

Lemma Start_then_Stop_leaks_nothing_witness :
  Start lab (mkSt direct_tunnel boot) = Ret (40000, None) started ∧
  Stop started = Ret tt wound_down ∧
  idle (tun wound_down) ∧ same_config (tun (mkSt direct_tunnel boot)) (tun wound_down) ∧
  w_open (world wound_down) ⊆ w_open (world (mkSt direct_tunnel boot)).
Proof.
  split; [vm_compute; reflexivity |]. split; [vm_compute; reflexivity |].
  apply (Start_then_Stop_leaks_nothing lab (mkSt direct_tunnel boot) 40000
           started wound_down); vm_compute; reflexivity.
Defined.

(** ** The forwarder

    The statements of this section are about turns during which no other
    goroutine touches the tunnel: a turn reads the stop channel, the
    listener and the target session as they are when it starts. *)

(** One turn on a running tunnel continues the loop. *)
Lemma forwardTunnel_iter_continues (env : Env) (s : St) (l c : handle) :
  stopChan (tun s) = ChanOpen →
  server (tun s) = Some l →
  targetConn (tun s) = Some c →
  ∃ s', forwardTunnel_iter env s = Ret LoopContinue s' ∧ tun s' = tun s.
Proof.
  destruct s as [[? ? ? ? ? ? ? ? ? ? ? srv bc tc ch] w].
  cbn [tun stopChan server targetConn]. intros -> -> ->.
  unfold forwardTunnel_iter. go_unfold. cbn -[channelData].
  rewrite ?channelData_wire.
  go_cases.
  all: eexists; split; reflexivity.
Qed.

(** X8. While the stop channel is open and the tunnel holds its listener
    and its target session, the forwarder keeps looping whatever the
    environment answers: accept time-outs, accept errors and refused
    channels neither end it nor make it panic, and they never change the
    tunnel object. *)
Theorem forwardTunnel_keeps_running
    (env : Env) (fuel : nat) (s : St) (l c : handle) :
  stopChan (tun s) = ChanOpen →
  server (tun s) = Some l →
  targetConn (tun s) = Some c →
  ∃ s', forwardTunnel env fuel s = Ret LoopContinue s' ∧ tun s' = tun s.
Proof.
  revert s. induction fuel as [| fuel IH]; intros s Hch Hsrv Htc; cbn [forwardTunnel].
  - exists s. split; reflexivity.
  - destruct (forwardTunnel_iter_continues env s l c Hch Hsrv Htc) as (s1 & Hturn & Htun).
    destruct (IH s1) as (s2 & Hrest & Htun2); [congruence .. |].
    exists s2. go_unfold. rewrite Hturn. split; [exact Hrest | congruence].
Qed.

(** A target that refuses every channel, behind a listener whose accepts
    succeed. *)
Definition lab_nochannel : Env :=
  {| ExpandEnv := ExpandEnv lab;
     UserHomeDir := UserHomeDir lab;
     Join := Join lab;
     ReadFile := ReadFile lab;
     ParsePrivateKey := ParsePrivateKey lab;
     net_Listen := net_Listen lab;
     ssh_Dial := ssh_Dial lab;
     client_Dial := client_Dial lab;
     ssh_NewClientConn := ssh_NewClientConn lab;
     net_Accept := net_Accept lab;
     ssh_OpenChannel := fun _ _ _ _ => Some (LibErr "connect failed") |}.

Lemma forwardTunnel_keeps_running_witness :
  stopChan (tun started) = ChanOpen ∧
  server (tun started) = Some 2%nat ∧
  targetConn (tun started) = Some 1%nat ∧
  ∃ s', forwardTunnel lab_nochannel 5 started = Ret LoopContinue s' ∧
        tun s' = tun started.
Proof.
  split; [vm_compute; reflexivity |]. split; [vm_compute; reflexivity |].
  split; [vm_compute; reflexivity |].
  apply (forwardTunnel_keeps_running lab_nochannel 5 started 2%nat 1%nat);
    vm_compute; reflexivity.
Defined.

(** X9. When the target refuses the channel for an accepted connection,
    the turn closes that connection and continues: the log shows the accept,
    the refused request with the payload [wire], and the close; the
    connection is not left open. *)
Theorem forwardTunnel_iter_refused
    (env : Env) (s : St) (l c : handle) (e : error) :
  stopChan (tun s) = ChanOpen →
  server (tun s) = Some l →
  targetConn (tun s) = Some c →
  net_Accept env (w_log (world s)) l = AcceptConn →
  ssh_OpenChannel env (w_log (world s) ++ [EAccept l (Some (w_next (world s)))])
    c "direct-tcpip" (wire (tun s)) = Some e →
  ∃ s',
    forwardTunnel_iter env s = Ret LoopContinue s' ∧
    logged [EAccept l (Some (w_next (world s)));
            EOpenChannel c "direct-tcpip" (wire (tun s)) None;
            EClose (w_next (world s))] s s' ∧
    tun s' = tun s ∧
    (w_next (world s) ∉ w_open (world s')) ∧
    w_open (world s') ⊆ w_open (world s).
Proof.
  destruct s as [[? ? ? ? ? ? ? ? ? ? ? srv bc tc ch] w].
  cbn [tun world stopChan server targetConn]. intros -> -> -> Hacc Hopen.
  unfold forwardTunnel_iter. go_unfold. cbn -[channelData].
  rewrite Hacc. cbn -[channelData]. rewrite channelData_wire.
  cbn -[wire]. cbn -[wire] in Hopen. rewrite Hopen. cbn -[wire].
  eexists. split; [reflexivity |].
  split; [log_eq |]. split; [reflexivity |]. cbn.
  split; [apply closed_now | handles].
Qed.

Lemma forwardTunnel_iter_refused_witness :
  stopChan (tun started) = ChanOpen ∧
  server (tun started) = Some 2%nat ∧
  targetConn (tun started) = Some 1%nat ∧
  ∃ s',
    forwardTunnel_iter lab_nochannel started = Ret LoopContinue s' ∧
    logged [EAccept 2%nat (Some (w_next (world started)));
            EOpenChannel 1%nat "direct-tcpip" (wire (tun started)) None;
            EClose (w_next (world started))] started s' ∧
    tun s' = tun started ∧
    (w_next (world started) ∉ w_open (world s')) ∧
    w_open (world s') ⊆ w_open (world started).
Proof.
  split; [vm_compute; reflexivity |]. split; [vm_compute; reflexivity |].
  split; [vm_compute; reflexivity |].
  apply (forwardTunnel_iter_refused lab_nochannel started 2%nat 1%nat
           (LibErr "connect failed")); vm_compute; reflexivity.
Defined.

(** ** Keys and dials *)

(** X10. With a key file that cannot be read, [createSSHClient] returns
    the read error wrapped as a read failure; with one whose contents do not
    parse, it returns the parse error wrapped as a parse failure.  In both
    cases it never dials: the one thing it has done is the read. *)
Theorem createSSHClient_bad_key
    (env : Env) (host : string) (port : Z) (user keyPath path : string) (s : St) :
  loadSSHKey_path env keyPath = Some path →
  (∀ e, ReadFile env (w_log (world s)) path = inl e →
        createSSHClient env host port user keyPath s
        = Ret (inl (Errorf "failed to read SSH key file" e)) (record (EReadFile path) s))
  ∧
  (∀ keyData e,
      ReadFile env (w_log (world s)) path = inr keyData →
      ParsePrivateKey env keyData = inl e →
      createSSHClient env host port user keyPath s
      = Ret (inl (Errorf "failed to parse SSH key" e)) (record (EReadFile path) s)).
Proof.
  intros Hpath.
  unfold createSSHClient, loadSSHKey, record. go_unfold. rewrite Hpath. cbn.
  split.
  - intros e Hread. rewrite Hread. reflexivity.
  - intros keyData e Hread Hparse. rewrite Hread. cbn. rewrite Hparse. reflexivity.
Qed.

(** A machine whose key file holds no key. *)
Definition lab_badkey : Env :=
  {| ExpandEnv := ExpandEnv lab;
     UserHomeDir := UserHomeDir lab;
     Join := Join lab;
     ReadFile := ReadFile lab;
     ParsePrivateKey := fun _ => inl (LibErr "ssh: no key found");
     net_Listen := net_Listen lab;
     ssh_Dial := ssh_Dial lab;
     client_Dial := client_Dial lab;
     ssh_NewClientConn := ssh_NewClientConn lab;
     net_Accept := net_Accept lab;
     ssh_OpenChannel := ssh_OpenChannel lab |}.

Lemma createSSHClient_bad_key_witness :
  createSSHClient lab "ssh.example" 22 "backup" "/keys/missing" (mkSt nokey_tunnel boot)
  = Ret (inl (Errorf "failed to read SSH key file" (LibErr "no such file or directory")))
        (record (EReadFile "/keys/missing") (mkSt nokey_tunnel boot)) ∧
  createSSHClient lab_badkey "ssh.example" 22 "backup" "/keys/id" (mkSt direct_tunnel boot)
  = Ret (inl (Errorf "failed to parse SSH key" (LibErr "ssh: no key found")))
        (record (EReadFile "/keys/id") (mkSt direct_tunnel boot)).
Proof.
  split.
  - apply (proj1 (createSSHClient_bad_key lab "ssh.example" 22 "backup" "/keys/missing"
                    "/keys/missing" (mkSt nokey_tunnel boot) eq_refl)).
    reflexivity.
  - apply (proj2 (createSSHClient_bad_key lab_badkey "ssh.example" 22 "backup" "/keys/id"
                    "/keys/id" (mkSt direct_tunnel boot) eq_refl) "ed25519");
      reflexivity.
Defined.

Lemma substring_all (s : string) : substring 0 (String.length s) s = s.
Proof. induction s as [| c r IH]; cbn; [reflexivity | now rewrite IH]. Qed.

(** X11. A key path whose expansion starts with [~/] is read under the
    home directory: the path handed to the reader is [filepath.Join] of the
    home directory and what follows the two characters. *)
Theorem loadSSHKey_path_tilde (env : Env) (keyPath rest : string) :
  ExpandEnv env keyPath = "~/" +:+ rest →
  loadSSHKey_path env keyPath = Some (Join env (UserHomeDir env) rest).
Proof.
  intros Hexp.
  change ("~/" +:+ rest) with (String "~" (String "/" rest)) in Hexp.
  unfold loadSSHKey_path. rewrite Hexp. cbn.
  replace (substring 0 0 rest) with "" by (destruct rest; reflexivity).
  cbn. rewrite ?Nat.sub_0_r, substring_all. reflexivity.
Qed.

Lemma loadSSHKey_path_tilde_witness :
  ExpandEnv lab "~/.ssh/id" = "~/" +:+ ".ssh/id" ∧
  loadSSHKey_path lab "~/.ssh/id" = Some (Join lab (UserHomeDir lab) ".ssh/id").
Proof.
  split; [reflexivity |].
  apply (loadSSHKey_path_tilde lab "~/.ssh/id" ".ssh/id"). reflexivity.
Defined.

(** X12. The payload buffer is always built: for every remote host and
    port no slice expression of the construction is out of range, and the
    buffer is 20 bytes longer than the host name. *)
Theorem channelData_length (t : SSHTunnel) :
  ∃ b, channelData t = Some b ∧ length b = (20 + String.length (remoteHost t))%nat.
Proof.
  exists (wire t). split; [apply channelData_wire |].
  unfold wire, be32. rewrite !length_app, length_bytes_of_string. cbn. lia.
Qed.

(** * The database gateway, the tunnel's caller

    [DatabaseGateway] owns at most one tunnel.  Before every database
    operation it makes sure the tunnel is up and points its effective
    host and port at the tunnel's local end; [Close] stops the tunnel. *)

(** [domain.Database] *)
Record Database : Type := NewDatabase { Name : string }.

Record DatabaseGateway : Type := mkDatabaseGateway {
  host : string;
  port : Z;
  user : string;
  password : string;
  mysqldumpPath : string;
  excludedDBs : gmap string bool;
  sshTunnel : option SSHTunnel;         (* nil when no tunnel is configured *)
  effectiveHost : string;
  effectivePort : Z
}.

Definition set_sshTunnel (t : option SSHTunnel) (dg : DatabaseGateway) : DatabaseGateway :=
  mkDatabaseGateway (host dg) (port dg) (user dg) (password dg) (mysqldumpPath dg)
    (excludedDBs dg) t (effectiveHost dg) (effectivePort dg).

Definition set_effectiveHost (h : string) (dg : DatabaseGateway) : DatabaseGateway :=
  mkDatabaseGateway (host dg) (port dg) (user dg) (password dg) (mysqldumpPath dg)
    (excludedDBs dg) (sshTunnel dg) h (effectivePort dg).

Definition set_effectivePort (p : Z) (dg : DatabaseGateway) : DatabaseGateway :=
  mkDatabaseGateway (host dg) (port dg) (user dg) (password dg) (mysqldumpPath dg)
    (excludedDBs dg) (sshTunnel dg) (effectiveHost dg) p.

(** The calls [BackupDatabase] makes to the operating system, each with
    what came back. *)
Inductive gevent : Type :=
| GLookPath (file : string) (r : option string)
| GMkdirAll (dir : string) (perm : Z) (ok : bool)
| GCreate (path : string) (r : option handle)
| GRun (cmd : string) (args : list string) (ok : bool)
| GStat (path : string) (r : option Z)
| GRemove (path : string).

(** What the gateway's libraries and the operating system answer; an
    answer that can change from call to call is given the trace so far. *)
Record GEnv : Type := mkGEnv {
  Getenv : string -> string;                              (* os.Getenv *)
  TrimSpace : string -> string;                           (* strings.TrimSpace *)
  sql_Open : string -> option error;                      (* sql.Open("mysql", dsn) *)
  db_Query : string -> string -> error + list (error + string);
    (* db.Query(query) on the database named by the DSN: the rows, each
       with what [rows.Scan] gives for it *)
  filepath_IsAbs : string -> bool;
  filepath_Dir : string -> string;
  exec_LookPath : list gevent -> string -> error + string;
  os_MkdirAll : list gevent -> string -> option error;
  os_Create : list gevent -> string -> option error;
  cmd_Run : list gevent -> string -> list string -> option error;
  os_Stat : list gevent -> string -> error + Z            (* the size, when there is a file *)
}.

(** The map literal of [NewDatabaseGateway]. *)
Definition systemExcluded : gmap string bool :=
  <["sys" := true]> (<["mysql" := true]> (<["performance_schema" := true]>
    (<["information_schema" := true]> ∅))).

(** The loop over the user's exclusions. *)
Definition add_excluded (genv : GEnv) (m : gmap string bool) (db : string)
    : gmap string bool :=
  if negb (String.eqb db "") then <[TrimSpace genv db := true]> m else m.

(** [NewDatabaseGateway] *)
Definition NewDatabaseGateway (genv : GEnv)
    (host : string) (port : Z) (user password mysqldumpPath : string)
    (excludedDBs : list string)
    (sshHost : string) (sshPort : Z) (sshUser sshKeyPath : string)
    (bastionHost : string) (bastionPort : Z) (bastionUser bastionKeyPath : string)
    : DatabaseGateway :=
  let systemExcluded := foldl (add_excluded genv) systemExcluded excludedDBs in
  let mysqldumpPath :=
    if String.eqb mysqldumpPath "" then Getenv genv "MYSQLDUMP_PATH" else mysqldumpPath in
  let mysqldumpPath :=
    if String.eqb mysqldumpPath "" then "mysqldump" else mysqldumpPath in
  let gateway :=
    mkDatabaseGateway host port user password mysqldumpPath systemExcluded
      None host port in
  if negb (String.eqb sshHost "") && negb (String.eqb sshUser "")
     && negb (String.eqb sshKeyPath "")
  then set_sshTunnel
         (Some (NewSSHTunnel sshHost sshPort sshUser sshKeyPath host port
                  bastionHost bastionPort bastionUser bastionKeyPath))
         gateway
  else gateway.

(** [dg.excludedDBs[dbName]]: a missing key reads as [false]. *)
Definition excluded (dg : DatabaseGateway) (dbName : string) : bool :=
  default false (excludedDBs dg !! dbName).

(** ** The gateway's machine *)

(** The gateway object, the world it shares with its tunnel, and the
    trace of its own operating-system calls. *)
Record GSt : Type := mkGSt {
  gw : DatabaseGateway;
  gworld : World;
  gtrace : list gevent
}.

Inductive gres (A : Type) : Type :=
| GRet (a : A) (gs : GSt)
| GPanic (p : panic) (gs : GSt).
Arguments GRet {A} a gs.
Arguments GPanic {A} p gs.

Definition GGo (A : Type) : Type := GSt -> gres A.

#[global] Instance GGo_ret : MRet GGo := fun A a gs => GRet a gs.
#[global] Instance GGo_bind : MBind GGo := fun A B k m gs =>
  match m gs with
  | GRet a gs' => k a gs'
  | GPanic p gs' => GPanic p gs'
  end.

Definition gthis : GGo DatabaseGateway := fun gs => GRet (gw gs) gs.
Definition gupdate (f : DatabaseGateway -> DatabaseGateway) : GGo unit :=
  fun gs => GRet tt (mkGSt (f (gw gs)) (gworld gs) (gtrace gs)).
Definition galloc : GGo handle :=
  fun gs => let w := gworld gs in
            GRet (w_next w)
                 (mkGSt (gw gs) (mkWorld (w_log w) (S (w_next w)) ({[w_next w]} ∪ w_open w))
                    (gtrace gs)).
Definition ghistory : GGo (list gevent) := fun gs => GRet (gtrace gs) gs.
Definition gemit (e : gevent) : GGo unit :=
  fun gs => GRet tt (mkGSt (gw gs) (gworld gs) (gtrace gs ++ [e])).
Definition gclose (h : handle) : GGo unit :=
  fun gs => let w := gworld gs in
            GRet tt (mkGSt (gw gs)
                       (mkWorld (w_log w ++ [EClose h]) (w_next w) (w_open w ∖ {[h]}))
                       (gtrace gs)).

(** A method of the gateway's tunnel, run on the gateway's machine: the
    tunnel object is the one the gateway points to, and what the method
    did to it stays done, also when it panics. *)
Definition on_tunnel {A} (t : SSHTunnel) (m : Go A) : GGo A :=
  fun gs =>
    match m (mkSt t (gworld gs)) with
    | Ret a s => GRet a (mkGSt (set_sshTunnel (Some (tun s)) (gw gs)) (world s) (gtrace gs))
    | Panic p s =>
        GPanic p (mkGSt (set_sshTunnel (Some (tun s)) (gw gs)) (world s) (gtrace gs))
    end.

(** [fmt.Sprintf("%s:%s@tcp(%s:%d)/", user, password, host, port)] *)
Definition mysql_dsn (dg : DatabaseGateway) : string :=
  user dg +:+ ":" +:+ password dg +:+ "@tcp("
  +:+ hostport (effectiveHost dg) (effectivePort dg) +:+ ")/".

Section Gateway.
Context (genv : GEnv) (env : Env).

(** [ensureSSHTunnel] *)
Definition ensureSSHTunnel : GGo (option error) :=
  dg ← gthis;
  match sshTunnel dg with
  | Some t =>
      if String.eqb (effectiveHost dg) (host dg) && (effectivePort dg =? port dg) then
        r ← on_tunnel t (Start env);
        match r with
        | (_, Some err) => mret (Some (Errorf "failed to start SSH tunnel" err))
        | (localPort, None) =>
            gupdate (set_effectiveHost "127.0.0.1");;
            gupdate (set_effectivePort localPort);;
            mret None
        end
      else mret None
  | None =>
      dg ← gthis;
      gupdate (set_effectiveHost (host dg));;
      gupdate (set_effectivePort (port dg));;
      mret None
  end.

(** [cleanupSSHTunnel] *)
Definition cleanupSSHTunnel : GGo unit :=
  dg ← gthis;
  match sshTunnel dg with
  | Some t =>
      on_tunnel t Stop;;
      dg ← gthis;
      gupdate (set_effectiveHost (host dg));;
      gupdate (set_effectivePort (port dg))
  | None => mret tt
  end.

(** [Close] *)
Definition Close : GGo unit := cleanupSSHTunnel.

(** The loop of [ListDatabases] over the rows: a row whose scan fails is
    skipped, an excluded name is skipped, the others are appended in
    order. *)
Fixpoint scan_rows (dg : DatabaseGateway) (rows : list (error + string))
    (databases : list Database) : list Database :=
  match rows with
  | [] => databases
  | inl _ :: rows' => scan_rows dg rows' databases
  | inr dbName :: rows' =>
      if negb (excluded dg dbName)
      then scan_rows dg rows' (databases ++ [NewDatabase dbName])
      else scan_rows dg rows' databases
  end.

(** [ListDatabases]: the two deferred closes run in reverse order on the
    way out. *)
Definition ListDatabases : GGo (list Database * option error) :=
  r ← ensureSSHTunnel;
  match r with
  | Some err => mret ([], Some err)
  | None =>
      dg ← gthis;
      let dsn := mysql_dsn dg in
      match sql_Open genv dsn with
      | Some err => mret ([], Some (Errorf "failed to connect to MySQL" err))
      | None =>
          db ← galloc;
          match db_Query genv dsn "SHOW DATABASES" with
          | inl err =>
              gclose db;;
              mret ([], Some (Errorf "failed to query databases" err))
          | inr result =>
              rows ← galloc;
              let databases := scan_rows dg result [] in
              gclose rows;;
              gclose db;;
              mret (databases, None)
          end
      end
  end.

(** The arguments [exec.Command] is given after the program. *)
Definition mysqldump_args (dg : DatabaseGateway) (dbName : string) : list string :=
  ["--host=" +:+ effectiveHost dg;
   "--port=" +:+ itoa (effectivePort dg);
   "--user=" +:+ user dg;
   "--password=" +:+ password dg;
   "--single-transaction";
   "--quick";
   "--skip-lock-tables";
   dbName].

(** The first step of [BackupDatabase] after the tunnel: the program to
    run, looked up in [PATH] unless the configured path is absolute. *)
Definition resolve_mysqldump (mysqldump : string) : GGo (error + string) :=
  if negb (filepath_IsAbs genv mysqldump) then
    h ← ghistory;
    match exec_LookPath genv h mysqldump with
    | inl _ =>
        gemit (GLookPath mysqldump None);;
        mret (inl (LibErr ("mysqldump not found. Set MYSQLDUMP_PATH in .env or ensure '"
                           +:+ mysqldump +:+ "' is in PATH")))
    | inr resolved =>
        gemit (GLookPath mysqldump (Some resolved));;
        mret (inr resolved)
    end
  else mret (inr mysqldump).

(** The part of [BackupDatabase] that runs with the output file open. *)
Definition run_mysqldump (mysqldump : string) (args : list string) (backupPath : string)
    : GGo (option error) :=
  h ← ghistory;
  match cmd_Run genv h mysqldump args with
  | Some err =>
      gemit (GRun mysqldump args false);;
      h ← ghistory;
      match os_Stat genv h backupPath with
      | inr size =>
          gemit (GStat backupPath (Some size));;
          if size =? 0 then gemit (GRemove backupPath) else mret tt
      | inl _ => gemit (GStat backupPath None)
      end;;
      mret (Some (Errorf "mysqldump failed" err))
  | None =>
      gemit (GRun mysqldump args true);;
      h ← ghistory;
      match os_Stat genv h backupPath with
      | inl err =>
          gemit (GStat backupPath None);;
          mret (Some (Errorf "backup file not found" err))
      | inr size =>
          gemit (GStat backupPath (Some size));;
          if size =? 0 then
            gemit (GRemove backupPath);;
            mret (Some (LibErr "backup file is empty. Check mysqldump permissions and options"))
          else mret None
      end
  end.

(** [BackupDatabase]; the directory mode [0755] is 493. *)
Definition BackupDatabase (dbName backupPath : string) : GGo (option error) :=
  r ← ensureSSHTunnel;
  match r with
  | Some err => mret (Some err)
  | None =>
      dg ← gthis;
      r ← resolve_mysqldump (mysqldumpPath dg);
      match r with
      | inl err => mret (Some err)
      | inr mysqldump =>
          let backupDir := filepath_Dir genv backupPath in
          h ← ghistory;
          match os_MkdirAll genv h backupDir with
          | Some err =>
              gemit (GMkdirAll backupDir 493 false);;
              mret (Some (Errorf "failed to create backup directory" err))
          | None =>
              gemit (GMkdirAll backupDir 493 true);;
              dg ← gthis;
              let args := mysqldump_args dg dbName in
              h ← ghistory;
              match os_Create genv h backupPath with
              | Some err =>
                  gemit (GCreate backupPath None);;
                  mret (Some (Errorf "failed to create backup file" err))
              | None =>
                  outFile ← galloc;
                  gemit (GCreate backupPath (Some outFile));;
                  r ← run_mysqldump mysqldump args backupPath;
                  gclose outFile;;
                  mret r
              end
          end
      end
  end.

End Gateway.

(** ** Building the gateway *)

Definition system_dbs : list string :=
  ["information_schema"; "performance_schema"; "mysql"; "sys"].

(** Every key of an exclusion map is mapped to [true]. *)
Definition all_true (m : gmap string bool) : Prop :=
  ∀ k v, m !! k = Some v → v = true.

Lemma all_true_insert (m : gmap string bool) (k : string) :
  all_true m → all_true (<[k := true]> m).
Proof.
  intros Hm k' v. rewrite lookup_insert_Some. intros [[_ <-] | [_ H]]; [reflexivity |].
  exact (Hm k' v H).
Qed.

Lemma systemExcluded_all_true : all_true systemExcluded.
Proof.
  unfold systemExcluded. repeat apply all_true_insert.
  intros k v. rewrite lookup_empty. discriminate.
Qed.

Lemma systemExcluded_keys (n : string) :
  is_Some (systemExcluded !! n) ↔ n ∈ system_dbs.
Proof.
  unfold systemExcluded, system_dbs.
  rewrite !lookup_insert_is_Some', lookup_empty, !elem_of_cons, elem_of_nil.
  pose proof (@is_Some_None bool) as Hnone.
  split.
  - intros [<- | [<- | [<- | [<- | H]]]]; first [contradiction | auto 10].
  - intros [-> | [-> | [-> | [-> | []]]]]; auto 10.
Qed.

Lemma foldl_add_excluded_all_true (genv : GEnv) (xs : list string) (m : gmap string bool) :
  all_true m → all_true (foldl (add_excluded genv) m xs).
Proof.
  revert m. induction xs as [| x xs IH]; intros m Hm; cbn [foldl]; [exact Hm |].
  apply IH. unfold add_excluded.
  destruct (negb (String.eqb x "")); [apply all_true_insert |]; exact Hm.
Qed.

Lemma foldl_add_excluded_keys (genv : GEnv) (xs : list string) (m : gmap string bool)
    (n : string) :
  is_Some (foldl (add_excluded genv) m xs !! n) ↔
  is_Some (m !! n) ∨ ∃ db, db ∈ xs ∧ db ≠ "" ∧ n = TrimSpace genv db.
Proof.
  revert m. induction xs as [| x xs IH]; intros m; cbn [foldl].
  - split; [auto |]. intros [H | (db & Hin & _)]; [exact H | inversion Hin].
  - rewrite IH. unfold add_excluded.
    destruct (String.eqb_spec x "") as [-> | Hx]; cbn [negb].
    + split.
      * intros [H | (db & Hin & Hne & ->)]; [auto |].
        right. exists db. rewrite elem_of_cons. auto.
      * intros [H | (db & Hin & Hne & ->)]; [auto |].
        right. exists db. apply elem_of_cons in Hin as [-> | Hin]; [congruence | auto].
    + rewrite lookup_insert_is_Some'. split.
      * intros [[<- | H] | (db & Hin & Hne & ->)]; [| auto |].
        -- right. exists x. rewrite elem_of_cons. auto.
        -- right. exists db. rewrite elem_of_cons. auto.
      * intros [H | (db & Hin & Hne & ->)]; [auto |].
        apply elem_of_cons in Hin as [-> | Hin]; [auto |].
        right. exists db. auto.
Qed.

Lemma excluded_is_Some (dg : DatabaseGateway) (n : string) :
  all_true (excludedDBs dg) →
  excluded dg n = true ↔ is_Some (excludedDBs dg !! n).
Proof.
  intros Hall. unfold excluded.
  destruct (excludedDBs dg !! n) as [v |] eqn:Hn; cbn.
  - rewrite (Hall n v Hn). split; [eauto | reflexivity].
  - split; [discriminate | intros [? ?]; discriminate].
Qed.

Section Built.
Context (genv : GEnv).
Context (h : string) (p : Z) (u pw md : string) (ex : list string).
Context (sh : string) (sp : Z) (su sk bh : string) (bp : Z) (bu bk : string).

(** The gateway the constructor returns for these arguments. *)
Definition built : DatabaseGateway :=
  NewDatabaseGateway genv h p u pw md ex sh sp su sk bh bp bu bk.

Lemma built_excludedDBs :
  excludedDBs built = foldl (add_excluded genv) systemExcluded ex.
Proof.
  unfold built, NewDatabaseGateway.
  destruct (negb (String.eqb sh "") && negb (String.eqb su "") && negb (String.eqb sk ""));
    reflexivity.
Qed.

(** X13. The names a new gateway excludes are exactly the four system
    databases and the user's non-empty entries with surrounding white space
    trimmed; an entry that is empty is ignored, one that is only white space
    excludes whatever it trims to. *)
Theorem NewDatabaseGateway_excluded (n : string) :
  excluded built n = true ↔
  n ∈ system_dbs ∨ ∃ db, db ∈ ex ∧ db ≠ "" ∧ n = TrimSpace genv db.
Proof.
  rewrite excluded_is_Some.
  - rewrite built_excludedDBs, foldl_add_excluded_keys, systemExcluded_keys. reflexivity.
  - rewrite built_excludedDBs. apply foldl_add_excluded_all_true, systemExcluded_all_true.
Qed.

(** X14. A new gateway never has an empty dump command: it is the
    argument when that is not empty, else the value of [MYSQLDUMP_PATH] when
    that is not empty, else the bare name [mysqldump]. *)
Theorem NewDatabaseGateway_mysqldumpPath :
  mysqldumpPath built ≠ "" ∧
  mysqldumpPath built
  = (if decide (md ≠ "") then md
     else if decide (Getenv genv "MYSQLDUMP_PATH" ≠ "") then Getenv genv "MYSQLDUMP_PATH"
     else "mysqldump").
Proof.
  assert (Hpath : mysqldumpPath built
    = (let m := if String.eqb md "" then Getenv genv "MYSQLDUMP_PATH" else md in
       if String.eqb m "" then "mysqldump" else m)).
  { unfold built, NewDatabaseGateway.
    destruct (negb (String.eqb sh "") && negb (String.eqb su "") && negb (String.eqb sk ""));
      reflexivity. }
  rewrite Hpath. cbv zeta.
  destruct (String.eqb_spec md "") as [-> | Hmd].
  - destruct (decide ("" ≠ "")) as [Habs | _]; [congruence |].
    destruct (String.eqb_spec (Getenv genv "MYSQLDUMP_PATH") "") as [He | He].
    + destruct (decide (Getenv genv "MYSQLDUMP_PATH" ≠ "")); [contradiction |].
      split; [discriminate | reflexivity].
    + destruct (decide (Getenv genv "MYSQLDUMP_PATH" ≠ "")); [| contradiction].
      split; [exact He | reflexivity].
  - destruct (decide (md ≠ "")); [| contradiction].
    destruct (String.eqb_spec md ""); [contradiction |].
    split; [exact Hmd | reflexivity].
Qed.

(** X15. A new gateway has a tunnel exactly when the SSH host, the SSH
    user and the key path are all given.  The tunnel then forwards to the
    database's own host and port, holds no port and no handle yet, and its
    stop channel is open; with or without a tunnel, the gateway starts out
    pointing at the database's own host and port. *)
Theorem NewDatabaseGateway_tunnel :
  (sshTunnel built ≠ None ↔ sh ≠ "" ∧ su ≠ "" ∧ sk ≠ "") ∧
  (∀ t, sshTunnel built = Some t →
        t = NewSSHTunnel sh sp su sk h p bh bp bu bk ∧
        remoteHost t = h ∧ remotePort t = p ∧ idle t ∧ stopChan t = ChanOpen) ∧
  host built = h ∧ port built = p ∧
  effectiveHost built = h ∧ effectivePort built = p.
Proof.
  unfold built, NewDatabaseGateway.
  destruct (String.eqb_spec sh "") as [-> | Hsh]; cbn [negb andb].
  { repeat split; try tauto; try discriminate. }
  destruct (String.eqb_spec su "") as [-> | Hsu]; cbn [negb andb].
  { repeat split; try tauto; try discriminate. }
  destruct (String.eqb_spec sk "") as [-> | Hsk]; cbn [negb andb].
  { repeat split; try tauto; try discriminate. }
  cbn. repeat split; try tauto; try discriminate; try reflexivity.
  all: match goal with H : Some _ = Some _ |- _ => injection H as <- end; reflexivity.
Qed.

End Built.

(** ** Making sure the tunnel is up *)

Ltac ggo_unfold :=
  unfold mbind, GGo_bind, mret, GGo_ret, gthis, gupdate, galloc, gclose, ghistory,
         gemit, on_tunnel in *.

(** A tunnel that holds a port answers [Start] at once. *)
Lemma Start_running (env : Env) (s : St) :
  localPort (tun s) ≠ 0 → Start env s = Ret (localPort (tun s), None) s.
Proof.
  intros Hp. unfold Start. go_unfold.
  destruct (Z.eqb_spec (localPort (tun s)) 0); [contradiction | reflexivity].
Qed.

(** X16. With a tunnel configured and the gateway still pointing at the
    database's own address, [ensureSSHTunnel] starts the tunnel; when the
    start succeeds the gateway points at [127.0.0.1] and the port [Start]
    returned, which is the port the tunnel holds. *)
Theorem ensureSSHTunnel_points_at_tunnel
    (env : Env) (gs : GSt) (t : SSHTunnel) (p : Z) (s1 : St) :
  sshTunnel (gw gs) = Some t →
  effectiveHost (gw gs) = host (gw gs) →
  effectivePort (gw gs) = port (gw gs) →
  Start env (mkSt t (gworld gs)) = Ret (p, None) s1 →
  ∃ gs1,
    ensureSSHTunnel env gs = GRet None gs1 ∧
    effectiveHost (gw gs1) = "127.0.0.1" ∧ effectivePort (gw gs1) = p ∧
    sshTunnel (gw gs1) = Some (tun s1) ∧ localPort (tun s1) = p ∧
    gworld gs1 = world s1 ∧
    host (gw gs1) = host (gw gs) ∧ port (gw gs1) = port (gw gs).
Proof.
  destruct gs as [[h p0 u pw md ex tn eh ep] w tr0].
  cbn [gw gworld sshTunnel effectiveHost effectivePort host port].
  intros -> -> -> Hstart.
  pose proof (Start_returns_localPort env _ _ _ _ Hstart) as [Hport _].
  unfold ensureSSHTunnel. ggo_unfold. cbn.
  rewrite String.eqb_refl, Z.eqb_refl. cbn. rewrite Hstart. cbn.
  eexists. split; [reflexivity |]. cbn. auto 10.
Qed.

(** A gateway in front of the laboratory's direct tunnel. *)
Definition glab : GEnv :=
  {| Getenv := fun _ => "";
     TrimSpace := fun s => s;
     sql_Open := fun _ => None;
     db_Query := fun _ _ =>
       inr [inr "information_schema"; inr "shop"; inl (LibErr "scan");
            inr "mysql"; inr "tmp"; inr "blog"];
     filepath_IsAbs := String.prefix "/";
     filepath_Dir := fun _ => "/backups/shop";
     exec_LookPath := fun _ file => inr ("/usr/bin/" +:+ file);
     os_MkdirAll := fun _ _ => None;
     os_Create := fun _ _ => None;
     cmd_Run := fun _ _ _ => None;
     os_Stat := fun _ _ => inr 1024 |}.

Definition lab_gateway : DatabaseGateway :=
  NewDatabaseGateway glab "db" 3306 "root" "secret" "" [""; "tmp"]
    "ssh.example" 22 "backup" "/keys/id" "" 0 "" "".

Definition plain_gateway : DatabaseGateway :=
  NewDatabaseGateway glab "db" 3306 "root" "secret" "" [""; "tmp"]
    "" 0 "" "" "" 0 "" "".

Lemma ensureSSHTunnel_points_at_tunnel_witness :
  sshTunnel (gw (mkGSt lab_gateway boot [])) = Some direct_tunnel ∧
  effectiveHost (gw (mkGSt lab_gateway boot [])) = host (gw (mkGSt lab_gateway boot [])) ∧
  effectivePort (gw (mkGSt lab_gateway boot [])) = port (gw (mkGSt lab_gateway boot [])) ∧
  Start lab (mkSt direct_tunnel (gworld (mkGSt lab_gateway boot [])))
  = Ret (40000, None) started ∧
  ∃ gs1,
    ensureSSHTunnel lab (mkGSt lab_gateway boot []) = GRet None gs1 ∧
    effectiveHost (gw gs1) = "127.0.0.1" ∧ effectivePort (gw gs1) = 40000 ∧
    sshTunnel (gw gs1) = Some (tun started) ∧ localPort (tun started) = 40000 ∧
    gworld gs1 = world started ∧
    host (gw gs1) = host (gw (mkGSt lab_gateway boot [])) ∧
    port (gw gs1) = port (gw (mkGSt lab_gateway boot [])).
Proof.
  split; [vm_compute; reflexivity |]. split; [vm_compute; reflexivity |].
  split; [vm_compute; reflexivity |]. split; [vm_compute; reflexivity |].
  apply (ensureSSHTunnel_points_at_tunnel lab (mkGSt lab_gateway boot [])
           direct_tunnel 40000 started); vm_compute; reflexivity.
Defined.

(** The state a gateway run ends in. *)
Definition gfinal {A : Type} (r : gres A) : GSt :=
  match r with
  | GRet _ gs => gs
  | GPanic _ gs => gs
  end.

(** X17. Once [ensureSSHTunnel] has succeeded and left a non-zero
    effective port, every later [ensureSSHTunnel] succeeds without touching
    the world or the gateway, whatever has happened in the world meanwhile:
    with no tunnel, with a tunnel already pointed at, and also when the
    database's own address happens to be the tunnel's local end. *)
Theorem ensureSSHTunnel_idempotent (env : Env) (gs gs1 : GSt) :
  ensureSSHTunnel env gs = GRet None gs1 →
  effectivePort (gw gs1) ≠ 0 →
  ∀ (w : World) (tr : list gevent),
    ensureSSHTunnel env (mkGSt (gw gs1) w tr) = GRet None (mkGSt (gw gs1) w tr).
Proof.
  destruct gs as [[h p0 u pw md ex tn eh ep] w0 tr0].
  unfold ensureSSHTunnel. ggo_unfold. cbn -[String.eqb].
  destruct tn as [t |]; cbn -[String.eqb].
  - destruct (String.eqb eh h && (ep =? p0)) eqn:Hsame; cbn -[String.eqb].
    + destruct (Start env (mkSt t w0)) as [[z [e |]] s1 | q s1] eqn:Hstart; cbn -[String.eqb];
        try discriminate.
      intros H. injection H as <-. cbn -[String.eqb]. intros Hz w tr.
      pose proof (Start_returns_localPort env _ _ _ _ Hstart) as [Hport _].
      specialize (Hport eq_refl). cbn -[String.eqb] in Hz |- *.
      destruct (String.eqb "127.0.0.1" h && (z =? p0)); cbn -[String.eqb]; [| reflexivity].
      rewrite <- Hport in Hz.
      rewrite (Start_running env (mkSt (tun s1) w) Hz). cbn -[String.eqb].
      rewrite Hport. reflexivity.
    + intros H. injection H as <-. cbn -[String.eqb]. intros _ w tr. rewrite Hsame. reflexivity.
  - intros H. injection H as <-. cbn -[String.eqb]. intros _ w tr. reflexivity.
Qed.

Definition lab_ensured : GSt := gfinal (ensureSSHTunnel lab (mkGSt lab_gateway boot [])).

Lemma ensureSSHTunnel_idempotent_witness :
  ensureSSHTunnel lab (mkGSt lab_gateway boot []) = GRet None lab_ensured ∧
  effectivePort (gw lab_ensured) ≠ 0 ∧
  ∀ (w : World) (tr : list gevent),
    ensureSSHTunnel lab (mkGSt (gw lab_ensured) w tr) = GRet None (mkGSt (gw lab_ensured) w tr).
Proof.
  split; [vm_compute; reflexivity |]. split; [vm_compute; discriminate |].
  apply (ensureSSHTunnel_idempotent lab (mkGSt lab_gateway boot []) lab_ensured);
    [vm_compute; reflexivity | vm_compute; discriminate].
Defined.

(** X18. A failed start is not retried.  When the tunnel's transport fails
    after a successful probe, [ensureSSHTunnel] returns the error and the
    gateway keeps the database's own address; the next [ensureSSHTunnel],
    however, succeeds without touching the world and points the gateway at
    [127.0.0.1] and the probed port, where the tunnel has no listener. *)
Theorem ensureSSHTunnel_retry_after_failure
    (env : Env) (gs : GSt) (t : SSHTunnel) (p : Z) (s1 : St) (err : error) (s' : St) :
  sshTunnel (gw gs) = Some t →
  localPort t = 0 →
  server t = None →
  effectiveHost (gw gs) = host (gw gs) →
  effectivePort (gw gs) = port (gw gs) →
  findFreePort env (mkSt t (gworld gs)) = Ret (p, None) s1 →
  p ≠ 0 →
  Start_transport env (mkSt (set_localPort p (tun s1)) (world s1)) = Ret (Some err) s' →
  ∃ gs1 t1,
    ensureSSHTunnel env gs
    = GRet (Some (Errorf "failed to start SSH tunnel" err)) gs1 ∧
    effectiveHost (gw gs1) = host (gw gs) ∧ effectivePort (gw gs1) = port (gw gs) ∧
    sshTunnel (gw gs1) = Some t1 ∧ localPort t1 = p ∧ server t1 = None ∧
    ∀ (w : World) (tr : list gevent),
      ensureSSHTunnel env (mkGSt (gw gs1) w tr)
      = GRet None
          (mkGSt (set_effectivePort p (set_effectiveHost "127.0.0.1" (gw gs1))) w tr).
Proof.
  destruct gs as [[h p0 u pw md ex tn eh ep] w0 tr0].
  cbn [gw gworld sshTunnel effectiveHost effectivePort host port].
  intros -> Hidle Hsrv -> -> Hprobe Hp Htransport.
  destruct (Start_transport_failure env (mkSt t w0) p s1 err s' Hidle Hprobe Htransport)
    as (Hstart & Hport & Hsrv').
  rewrite (findFreePort_frame env _ _ _ Hprobe) in Hsrv'. cbn in Hsrv'.
  unfold ensureSSHTunnel. ggo_unfold. cbn -[String.eqb].
  rewrite String.eqb_refl, Z.eqb_refl. cbn -[String.eqb]. rewrite Hstart. cbn -[String.eqb].
  do 2 eexists. split; [reflexivity |]. cbn -[String.eqb].
  repeat (split; [first [reflexivity | exact Hport | congruence] |]).
  intros w tr. rewrite String.eqb_refl, Z.eqb_refl. cbn -[String.eqb].
  assert (Hrun : localPort (tun (mkSt (tun s') w)) ≠ 0) by (cbn; congruence).
  rewrite (Start_running env (mkSt (tun s') w) Hrun). cbn -[String.eqb].
  rewrite Hport. destruct (tun s'); reflexivity.
Qed.

Definition nokey_gateway : DatabaseGateway :=
  NewDatabaseGateway glab "db" 3306 "root" "secret" "" []
    "ssh.example" 22 "backup" "/keys/missing" "" 0 "" "".

Lemma ensureSSHTunnel_retry_after_failure_witness :
  ∃ gs1 t1,
    ensureSSHTunnel lab (mkGSt nokey_gateway boot [])
    = GRet (Some (Errorf "failed to start SSH tunnel" nokey_error)) gs1 ∧
    effectiveHost (gw gs1) = host (gw (mkGSt nokey_gateway boot [])) ∧
    effectivePort (gw gs1) = port (gw (mkGSt nokey_gateway boot [])) ∧
    sshTunnel (gw gs1) = Some t1 ∧ localPort t1 = 40000 ∧ server t1 = None ∧
    ∀ (w : World) (tr : list gevent),
      ensureSSHTunnel lab (mkGSt (gw gs1) w tr)
      = GRet None
          (mkGSt (set_effectivePort 40000 (set_effectiveHost "127.0.0.1" (gw gs1))) w tr).
Proof.
  apply (ensureSSHTunnel_retry_after_failure lab (mkGSt nokey_gateway boot [])
           nokey_tunnel 40000 nokey_probed nokey_error nokey_failed);
    [vm_compute; reflexivity | reflexivity | reflexivity | reflexivity | reflexivity
    | vm_compute; reflexivity | lia | vm_compute; reflexivity].
Defined.

(** ** Closing the gateway *)

(** X19. [Close] on a gateway whose tunnel has an open stop channel stops
    the tunnel: the tunnel holds no port and no handle, the handles it held
    are closed and no other, and the gateway points at the database's own
    address again.  The stop channel is left closed, so a second [Close]
    panics. *)
Theorem Close_stops_tunnel (gs : GSt) (t : SSHTunnel) :
  sshTunnel (gw gs) = Some t →
  stopChan t = ChanOpen →
  ∃ gs1 t1,
    Close gs = GRet tt gs1 ∧
    sshTunnel (gw gs1) = Some t1 ∧ idle t1 ∧ same_config t t1 ∧
    effectiveHost (gw gs1) = host (gw gs) ∧ effectivePort (gw gs1) = port (gw gs) ∧
    w_log (gworld gs1) = w_log (gworld gs) ++ map EClose (held t) ∧
    (∀ h, h ∈ w_open (gworld gs1) ↔ h ∈ w_open (gworld gs) ∧ h ∉ held t) ∧
    Close gs1 = GPanic CloseOfClosedChannel gs1.
Proof.
  destruct gs as [[h p0 u pw md ex tn eh ep] w tr0].
  cbn [gw gworld sshTunnel]. intros -> Hch.
  destruct t as [? ? ? ? ? ? ? ? ? ? ? srv bc tc ch]. cbn in Hch. subst ch.
  unfold Close, cleanupSSHTunnel, Stop, held, idle, same_config.
  ggo_unfold. go_unfold.
  destruct srv as [l |], tc as [c |], bc as [b |]; cbn.
  all: do 2 eexists; split; [reflexivity |]; cbn.
  all: split; [reflexivity |].
  all: split; [tauto |]. 
  all: split; [tauto |].
  all: split; [reflexivity |]; split; [reflexivity |].
  all: split; [rewrite <- ?app_assoc, ?app_nil_r; reflexivity |].
  all: split; [| reflexivity].
  all: intros x;
    repeat first [rewrite elem_of_difference | rewrite elem_of_singleton
                 | rewrite elem_of_cons | rewrite elem_of_nil];
    tauto.
Qed.

Lemma Close_stops_tunnel_witness :
  sshTunnel (gw lab_ensured) = Some (tun started) ∧
  stopChan (tun started) = ChanOpen ∧
  ∃ gs1 t1,
    Close lab_ensured = GRet tt gs1 ∧
    sshTunnel (gw gs1) = Some t1 ∧ idle t1 ∧ same_config (tun started) t1 ∧
    effectiveHost (gw gs1) = host (gw lab_ensured) ∧
    effectivePort (gw gs1) = port (gw lab_ensured) ∧
    w_log (gworld gs1) = w_log (gworld lab_ensured) ++ map EClose (held (tun started)) ∧
    (∀ h, h ∈ w_open (gworld gs1) ↔
          h ∈ w_open (gworld lab_ensured) ∧ h ∉ held (tun started)) ∧
    Close gs1 = GPanic CloseOfClosedChannel gs1.
Proof.
  split; [vm_compute; reflexivity |]. split; [vm_compute; reflexivity |].
  apply (Close_stops_tunnel lab_ensured (tun started)); vm_compute; reflexivity.
Defined.

(** ** Listing the databases *)

(** What [rows.Scan] gave for a row, when it gave a name. *)
Definition scanned (rows : list (error + string)) : list string :=
  omap (fun r => match r with inl _ => None | inr dbName => Some dbName end) rows.

Lemma scan_rows_filter (dg : DatabaseGateway) (rows : list (error + string))
    (databases : list Database) :
  map Name (scan_rows dg rows databases)
  = map Name databases ++ filter (fun n => excluded dg n = false) (scanned rows).
Proof.
  revert databases. induction rows as [| [e | n] rows IH]; intros databases;
    cbn [scan_rows].
  - cbn. rewrite app_nil_r. reflexivity.
  - rewrite IH. reflexivity.
  - unfold scanned. cbn [omap list_omap]. fold (scanned rows).
    destruct (excluded dg n) eqn:Hex; cbn [negb].
    + rewrite IH, filter_cons_False; [reflexivity | congruence].
    + rewrite IH, filter_cons_True by exact Hex.
      rewrite map_app, <- app_assoc. reflexivity.
Qed.

(** [ensureSSHTunnel] leaves the gateway's own fields alone, the exclusion
    map among them. *)
Lemma ensureSSHTunnel_frame (env : Env) (gs : GSt) r (gs1 : GSt) :
  ensureSSHTunnel env gs = GRet r gs1 →
  excludedDBs (gw gs1) = excludedDBs (gw gs) ∧
  user (gw gs1) = user (gw gs) ∧ password (gw gs1) = password (gw gs).
Proof.
  destruct gs as [[h p0 u pw md ex tn eh ep] w0 tr0].
  unfold ensureSSHTunnel. ggo_unfold. cbn -[String.eqb].
  destruct tn as [t |]; cbn -[String.eqb].
  - destruct (String.eqb eh h && (ep =? p0)); cbn -[String.eqb].
    + destruct (Start env (mkSt t w0)) as [[z [e |]] s1 | q s1]; cbn;
        try discriminate; intros H; injection H as _ <-; cbn; auto.
    + intros H; injection H as _ <-; cbn; auto.
  - intros H; injection H as _ <-; cbn; auto.
Qed.

(** X20. When [ListDatabases] returns without error, it has opened the
    database named by the gateway's user, password and effective address
    and asked for its databases; the names it returns are those rows whose
    scan succeeded and whose name is not excluded, in the order of the
    rows. *)
Theorem ListDatabases_filters_rows
    (genv : GEnv) (env : Env) (gs : GSt) (dbs : list Database) (gs1 : GSt) :
  ListDatabases genv env gs = GRet (dbs, None) gs1 →
  ∃ rows,
    sql_Open genv (mysql_dsn (gw gs1)) = None ∧
    db_Query genv (mysql_dsn (gw gs1)) "SHOW DATABASES" = inr rows ∧
    map Name dbs = filter (fun n => excluded (gw gs) n = false) (scanned rows).
Proof.
  unfold ListDatabases. ggo_unfold.
  destruct (ensureSSHTunnel env gs) as [[e |] gs0 | q gs0] eqn:Hens; try discriminate.
  destruct (ensureSSHTunnel_frame env gs None gs0 Hens) as (Hex & _).
  cbn.
  destruct (sql_Open genv (mysql_dsn (gw gs0))) as [e |] eqn:Hopen; [discriminate |].
  cbn.
  destruct (db_Query genv (mysql_dsn (gw gs0)) "SHOW DATABASES") as [e | rows] eqn:Hq;
    cbn; [discriminate |].
  intros H. injection H as <- <-. cbn.
  exists rows. split; [exact Hopen |]. split; [exact Hq |].
  rewrite scan_rows_filter. cbn.
  unfold excluded. rewrite Hex. reflexivity.
Qed.

Definition plain_listed : GSt := gfinal (ListDatabases glab lab (mkGSt plain_gateway boot [])).

Lemma ListDatabases_filters_rows_witness :
  ListDatabases glab lab (mkGSt plain_gateway boot [])
  = GRet ([NewDatabase "shop"; NewDatabase "blog"], None) plain_listed ∧
  ∃ rows,
    sql_Open glab (mysql_dsn (gw plain_listed)) = None ∧
    db_Query glab (mysql_dsn (gw plain_listed)) "SHOW DATABASES" = inr rows ∧
    map Name [NewDatabase "shop"; NewDatabase "blog"]
    = filter (fun n => excluded (gw (mkGSt plain_gateway boot [])) n = false) (scanned rows).
Proof.
  split; [vm_compute; reflexivity |].
  apply (ListDatabases_filters_rows glab lab (mkGSt plain_gateway boot [])
           [NewDatabase "shop"; NewDatabase "blog"] plain_listed).
  vm_compute; reflexivity.
Defined.

(** X21. A gateway as the constructor built it never lists a system
    database, nor a database the user excluded: whatever the server
    answers, no returned name is one of the four system names or the trimmed
    form of a non-empty user entry. *)
Theorem ListDatabases_never_lists_excluded
    (genv : GEnv) (env : Env)
    (h : string) (p : Z) (u pw md : string) (ex : list string)
    (sh : string) (sp : Z) (su sk bh : string) (bp : Z) (bu bk : string)
    (w : World) (tr : list gevent) (dbs : list Database) (gs1 : GSt) :
  ListDatabases genv env
    (mkGSt (NewDatabaseGateway genv h p u pw md ex sh sp su sk bh bp bu bk) w tr)
  = GRet (dbs, None) gs1 →
  ∀ d, d ∈ dbs →
    (Name d ∉ system_dbs) ∧
    ∀ db, db ∈ ex → db ≠ "" → Name d ≠ TrimSpace genv db.
Proof.
  intros Hlist d Hd.
  set (dg := NewDatabaseGateway genv h p u pw md ex sh sp su sk bh bp bu bk) in *.
  assert (Hall : all_true (excludedDBs dg)).
  { change (all_true (excludedDBs (built genv h p u pw md ex sh sp su sk bh bp bu bk))).
    rewrite built_excludedDBs.
    apply foldl_add_excluded_all_true, systemExcluded_all_true. }
  assert (Hnot : excluded dg (Name d) = false).
  { unfold ListDatabases in Hlist. ggo_unfold.
    destruct (ensureSSHTunnel env (mkGSt dg w tr)) as [[e |] gs0 | q gs0] eqn:Hens;
      try discriminate.
    destruct (ensureSSHTunnel_frame env _ None gs0 Hens) as (Hex & _).
    cbn in Hlist.
    destruct (sql_Open genv (mysql_dsn (gw gs0))) as [e |]; [discriminate |].
    cbn in Hlist.
    destruct (db_Query genv (mysql_dsn (gw gs0)) "SHOW DATABASES") as [e | rows];
      cbn in Hlist; [discriminate |].
    injection Hlist as <- _.
    assert (Hin : Name d ∈ map Name (scan_rows (gw gs0) rows [])).
    { exact (list_elem_of_fmap_2 Name _ d Hd). }
    rewrite scan_rows_filter in Hin. cbn in Hin.
    apply list_elem_of_filter in Hin as [Hin _].
    unfold excluded in *. cbn in Hex. rewrite <- Hex. exact Hin. }
  assert (Hnone : ¬ is_Some (excludedDBs dg !! Name d)).
  { rewrite <- (excluded_is_Some dg (Name d) Hall). congruence. }
  change dg with (built genv h p u pw md ex sh sp su sk bh bp bu bk) in Hnone.
  rewrite built_excludedDBs in Hnone.
  rewrite foldl_add_excluded_keys, systemExcluded_keys in Hnone.
  split; [tauto |].
  intros db Hin Hne Heq. apply Hnone. right. exists db. auto.
Qed.

Lemma ListDatabases_never_lists_excluded_witness :
  (Name (NewDatabase "shop") ∉ system_dbs) ∧
  ∀ db, db ∈ [""; "tmp"] → db ≠ "" → Name (NewDatabase "shop") ≠ TrimSpace glab db.
Proof.
  apply (ListDatabases_never_lists_excluded glab lab "db" 3306 "root" "secret" ""
           [""; "tmp"] "" 0 "" "" "" 0 "" "" boot []
           [NewDatabase "shop"; NewDatabase "blog"] plain_listed);
    [vm_compute; reflexivity | apply elem_of_cons; left; reflexivity].
Defined.

(** X22. Beyond what [ensureSSHTunnel] did, [ListDatabases] leaves no
    trace: on every return path after the tunnel is ensured, with or without
    an error, the database handle and the row set it opened are closed
    again and the gateway object is as [ensureSSHTunnel] left it. *)
Theorem ListDatabases_closes_what_it_opens
    (genv : GEnv) (env : Env) (gs gs0 : GSt)
    (r : list Database * option error) (gs1 : GSt) :
  ensureSSHTunnel env gs = GRet None gs0 →
  ListDatabases genv env gs = GRet r gs1 →
  gw gs1 = gw gs0 ∧
  w_open (gworld gs1) ⊆ w_open (gworld gs0) ∧
  gtrace gs1 = gtrace gs0 ∧
  ∃ closed, w_log (gworld gs1) = w_log (gworld gs0) ++ map EClose closed.
Proof.
  intros Hens. unfold ListDatabases. ggo_unfold. rewrite Hens. cbn.
  destruct (sql_Open genv (mysql_dsn (gw gs0))) as [e |]; cbn.
  - intros H. injection H as _ <-.
    split; [reflexivity |]. split; [reflexivity |]. split; [reflexivity |].
    exists []. cbn. rewrite app_nil_r. reflexivity.
  - destruct (db_Query genv (mysql_dsn (gw gs0)) "SHOW DATABASES") as [e | rows]; cbn.
    + intros H. injection H as _ <-. cbn.
      split; [reflexivity |]. split; [handles |]. split; [reflexivity |].
      exists [w_next (gworld gs0)]. reflexivity.
    + intros H. injection H as _ <-. cbn.
      split; [reflexivity |]. split; [handles |]. split; [reflexivity |].
      exists [S (w_next (gworld gs0)); w_next (gworld gs0)].
      cbn. rewrite <- app_assoc. reflexivity.
Qed.

Lemma ListDatabases_closes_what_it_opens_witness :
  ensureSSHTunnel lab (mkGSt plain_gateway boot []) = GRet None (mkGSt plain_gateway boot []) ∧
  gw plain_listed = gw (mkGSt plain_gateway boot []) ∧
  w_open (gworld plain_listed) ⊆ w_open (gworld (mkGSt plain_gateway boot [])) ∧
  gtrace plain_listed = gtrace (mkGSt plain_gateway boot []) ∧
  ∃ closed, w_log (gworld plain_listed)
            = w_log (gworld (mkGSt plain_gateway boot [])) ++ map EClose closed.
Proof.
  split; [vm_compute; reflexivity |].
  apply (ListDatabases_closes_what_it_opens glab lab (mkGSt plain_gateway boot [])
           (mkGSt plain_gateway boot [])
           ([NewDatabase "shop"; NewDatabase "blog"], None) plain_listed);
    vm_compute; reflexivity.
Defined.

(** ** Dumping a database *)

Lemma ensureSSHTunnel_gtrace (env : Env) (gs : GSt) r (gs1 : GSt) :
  ensureSSHTunnel env gs = GRet r gs1 → gtrace gs1 = gtrace gs.
Proof.
  destruct gs as [[h p0 u pw md ex tn eh ep] w0 tr0].
  unfold ensureSSHTunnel. ggo_unfold. cbn -[String.eqb].
  destruct tn as [t |]; cbn -[String.eqb].
  - destruct (String.eqb eh h && (ep =? p0)); cbn -[String.eqb].
    + destruct (Start env (mkSt t w0)) as [[z [e |]] s1 | q s1]; cbn;
        try discriminate; intros H; injection H as _ <-; reflexivity.
    + intros H; injection H as _ <-; reflexivity.
  - intros H; injection H as _ <-; reflexivity.
Qed.

Ltac backup_start :=
  unfold BackupDatabase, resolve_mysqldump, run_mysqldump; ggo_unfold.

(** What a successful dump has done after the tunnel was ensured, leaving
    the gateway in [gs0]. *)
Definition dumped (genv : GEnv) (dbName backupPath : string) (gs0 gs1 : GSt) : Prop :=
  let dg := gw gs0 in
  ∃ looked cmd f size,
    gtrace gs1
    = gtrace gs0 ++ looked
      ++ [GMkdirAll (filepath_Dir genv backupPath) 493 true;
          GCreate backupPath (Some f);
          GRun cmd (mysqldump_args dg dbName) true;
          GStat backupPath (Some size)] ∧
    ((filepath_IsAbs genv (mysqldumpPath dg) = true ∧ looked = [] ∧ cmd = mysqldumpPath dg)
     ∨ (filepath_IsAbs genv (mysqldumpPath dg) = false ∧
        looked = [GLookPath (mysqldumpPath dg) (Some cmd)])) ∧
    size ≠ 0 ∧
    gw gs1 = gw gs0 ∧
    w_log (gworld gs1) = w_log (gworld gs0) ++ [EClose f] ∧
    (f ∉ w_open (gworld gs1)).

(** X23. [BackupDatabase] returns no error only after this sequence: the
    tunnel is ensured; the dump program is the configured path when that is
    absolute and otherwise what the [PATH] lookup gave; the backup directory
    is created with mode 0755; the backup file is created; the program runs
    with host and port set to the gateway's effective address, the user, the
    password, the three fixed options and the database name, and succeeds;
    the file's status is read and its size is not zero; the file is
    closed. *)
Theorem BackupDatabase_success
    (genv : GEnv) (env : Env) (dbName backupPath : string) (gs gs1 : GSt) :
  BackupDatabase genv env dbName backupPath gs = GRet None gs1 →
  ∃ gs0, ensureSSHTunnel env gs = GRet None gs0 ∧ dumped genv dbName backupPath gs0 gs1.
Proof.
  unfold dumped. backup_start.
  destruct (ensureSSHTunnel env gs) as [[e |] gs0 | q gs0] eqn:Hens; try discriminate.
  cbn. go_cases.
  all: intros H; injection H as <-; cbn.
  all: exists gs0; split; [reflexivity |].
  all: lazymatch goal with
       | H : exec_LookPath _ _ _ = inr ?c |- _ =>
           exists [GLookPath (mysqldumpPath (gw gs0)) (Some c)], c
       | _ => exists [], (mysqldumpPath (gw gs0))
       end.
  all: do 2 eexists.
  all: split; [rewrite <- ?app_assoc; reflexivity |].
  all: split; [first [left; repeat split; apply negb_false_iff; assumption
                     | right; repeat split; apply negb_true_iff; assumption] |].
  all: split; [apply Z.eqb_neq; assumption |].
  all: split; [reflexivity |]; split; [reflexivity |]; apply closed_now.
Qed.

Definition plain_dumped : GSt :=
  gfinal (BackupDatabase glab lab "shop" "/backups/shop/shop.sql" (mkGSt plain_gateway boot [])).

Lemma BackupDatabase_success_witness :
  BackupDatabase glab lab "shop" "/backups/shop/shop.sql" (mkGSt plain_gateway boot [])
  = GRet None plain_dumped ∧
  ∃ gs0, ensureSSHTunnel lab (mkGSt plain_gateway boot []) = GRet None gs0 ∧
         dumped glab "shop" "/backups/shop/shop.sql" gs0 plain_dumped.
Proof.
  split; [vm_compute; reflexivity |].
  apply (BackupDatabase_success glab lab "shop" "/backups/shop/shop.sql"
           (mkGSt plain_gateway boot []) plain_dumped).
  vm_compute; reflexivity.
Defined.

(** X24. When the tunnel cannot be ensured, neither operation goes any
    further: [ListDatabases] and [BackupDatabase] both return the tunnel's
    error as it is, no database is opened, no program is looked up, no
    directory or file is created, and the machine is as [ensureSSHTunnel]
    left it. *)
Theorem tunnel_failure_stops_operations
    (genv : GEnv) (env : Env) (dbName backupPath : string)
    (gs : GSt) (err : error) (gs0 : GSt) :
  ensureSSHTunnel env gs = GRet (Some err) gs0 →
  ListDatabases genv env gs = GRet ([], Some err) gs0 ∧
  BackupDatabase genv env dbName backupPath gs = GRet (Some err) gs0 ∧
  gtrace gs0 = gtrace gs ∧
  ∃ cause, err = Errorf "failed to start SSH tunnel" cause.
Proof.
  intros Hens.
  split; [unfold ListDatabases; ggo_unfold; rewrite Hens; reflexivity |].
  split; [unfold BackupDatabase; ggo_unfold; rewrite Hens; reflexivity |].
  split; [exact (ensureSSHTunnel_gtrace env gs _ gs0 Hens) |].
  revert Hens.
  destruct gs as [[h p0 u pw md ex tn eh ep] w0 tr0].
  unfold ensureSSHTunnel. ggo_unfold. cbn -[String.eqb].
  destruct tn as [t |]; cbn -[String.eqb]; [| discriminate].
  destruct (String.eqb eh h && (ep =? p0)); cbn -[String.eqb]; [| discriminate].
  destruct (Start env (mkSt t w0)) as [[z [e |]] s1 | q s1]; cbn; try discriminate.
  intros H. injection H as <- _. eexists. reflexivity.
Qed.

Definition nokey_refused : GSt := gfinal (ensureSSHTunnel lab (mkGSt nokey_gateway boot [])).

Lemma tunnel_failure_stops_operations_witness :
  ensureSSHTunnel lab (mkGSt nokey_gateway boot [])
  = GRet (Some (Errorf "failed to start SSH tunnel" nokey_error)) nokey_refused ∧
  ListDatabases glab lab (mkGSt nokey_gateway boot [])
  = GRet ([], Some (Errorf "failed to start SSH tunnel" nokey_error)) nokey_refused ∧
  BackupDatabase glab lab "shop" "/backups/shop/shop.sql" (mkGSt nokey_gateway boot [])
  = GRet (Some (Errorf "failed to start SSH tunnel" nokey_error)) nokey_refused ∧
  gtrace nokey_refused = gtrace (mkGSt nokey_gateway boot []) ∧
  ∃ cause, Errorf "failed to start SSH tunnel" nokey_error
           = Errorf "failed to start SSH tunnel" cause.
Proof.
  split; [vm_compute; reflexivity |].
  apply (tunnel_failure_stops_operations glab lab "shop" "/backups/shop/shop.sql"
           (mkGSt nokey_gateway boot [])
           (Errorf "failed to start SSH tunnel" nokey_error) nokey_refused).
  vm_compute; reflexivity.
Defined.

(** The part of the trace a run has added, when the trace only grew. *)
Definition added (gs gs1 : GSt) (new : list gevent) : Prop :=
  gtrace gs1 = gtrace gs ++ new.


(** A machine on which the dump program fails without writing anything. *)
Definition glab_nodump : GEnv :=
  {| Getenv := Getenv glab;
     TrimSpace := TrimSpace glab;
     sql_Open := sql_Open glab;
     db_Query := db_Query glab;
     filepath_IsAbs := filepath_IsAbs glab;
     filepath_Dir := filepath_Dir glab;
     exec_LookPath := exec_LookPath glab;
     os_MkdirAll := os_MkdirAll glab;
     os_Create := os_Create glab;
     cmd_Run := fun _ _ _ => Some (LibErr "exit status 2");
     os_Stat := fun _ _ => inr 0 |}.

Definition plain_undumped : GSt :=
  gfinal (BackupDatabase glab_nodump lab "shop" "/backups/shop/shop.sql"
            (mkGSt plain_gateway boot [])).


Ltac trace_mem :=
  repeat first [rewrite elem_of_cons | rewrite elem_of_nil | rewrite elem_of_app];
  repeat match goal with
         | H : (_ =? 0) = true |- _ => apply Z.eqb_eq in H
         | H : (_ =? 0) = false |- _ => apply Z.eqb_neq in H
         end;
  subst;
  split;
  [ intros Hmem; repeat destruct Hmem as [Hmem | Hmem]; try discriminate Hmem;
    try contradiction; injection Hmem as ->; auto 10
  | intros [-> Hmem]; repeat destruct Hmem as [Hmem | Hmem]; try discriminate Hmem;
    try contradiction; try (injection Hmem as ?; congruence); auto 10 ].

(** X26. Whatever [BackupDatabase] returns, the only file it ever removes
    is the backup file, and it removes it exactly when a status read of this
    call reported the size zero; every handle it opened itself is closed
    again by the time it returns. *)
Theorem BackupDatabase_removes_only_empty
    (genv : GEnv) (env : Env) (dbName backupPath : string)
    (gs : GSt) (r : option error) (gs1 : GSt) :
  BackupDatabase genv env dbName backupPath gs = GRet r gs1 →
  ∃ gs0 r0 new,
    ensureSSHTunnel env gs = GRet r0 gs0 ∧
    added gs gs1 new ∧
    (∀ path, GRemove path ∈ new ↔ path = backupPath ∧ GStat backupPath (Some 0) ∈ new) ∧
    gw gs1 = gw gs0 ∧
    w_open (gworld gs1) ⊆ w_open (gworld gs0).
Proof.
  unfold added. backup_start.
  destruct (ensureSSHTunnel env gs) as [[e0 |] gs0 | q gs0] eqn:Hens; cbn;
    [| | discriminate].
  - intros H. injection H as <- <-.
    exists gs0, (Some e0), []. split; [reflexivity |].
    rewrite (ensureSSHTunnel_gtrace env gs _ gs0 Hens).
    split; [rewrite app_nil_r; reflexivity |].
    split; [intros path; trace_mem |]. split; reflexivity.
  - rewrite <- (ensureSSHTunnel_gtrace env gs _ gs0 Hens).
    go_cases.
    all: intros H; injection H as <- <-; cbn.
    all: exists gs0, None; eexists; split; [reflexivity |].
    all: split; [rewrite <- ?app_assoc; reflexivity |].
    all: split; [intros path; trace_mem |].
    all: split; [reflexivity | handles].
Qed.

Lemma BackupDatabase_removes_only_empty_witness :
  ∃ gs0 r0 new,
    ensureSSHTunnel lab (mkGSt plain_gateway boot []) = GRet r0 gs0 ∧
    added (mkGSt plain_gateway boot []) plain_undumped new ∧
    (∀ path, GRemove path ∈ new ↔
             path = "/backups/shop/shop.sql" ∧ GStat "/backups/shop/shop.sql" (Some 0) ∈ new) ∧
    gw plain_undumped = gw gs0 ∧
    w_open (gworld plain_undumped) ⊆ w_open (gworld gs0).
Proof.
  apply (BackupDatabase_removes_only_empty glab_nodump lab "shop" "/backups/shop/shop.sql"
           (mkGSt plain_gateway boot [])
           (Some (Errorf "mysqldump failed" (LibErr "exit status 2"))) plain_undumped).
  vm_compute; reflexivity.
Defined.
